(** * Data preprocessing pipeline: a model of the code and its properties

    The development follows [DataPreprocessingPipeline.py] (imputation,
    outlier replacement, standardisation, and the standalone row filter
    [handle_outliers_iqr]) and [Preprocessing-api/process.py] (the
    conversion endpoint and the dashboard).

    Numbers.  The numeric code is given in two readings.

    In module [F64] a cell is an IEEE 754 binary64 number (Rocq's
    primitive floats), NaN being pandas' missing value, and the arithmetic
    of the source -- the bounds [Q1 - 1.5 * IQR] and [Q3 + 1.5 * IQR], the
    comparisons with them -- is the arithmetic of the machine, rounding
    included.  This is the reading in which a value is, or is not, outside
    its bounds for the program.  The numeric routines of the libraries are
    parameters there; their documented algorithms are written out for
    evaluating examples.

    In the exact reading a cell is [option R]: [None] is NaN, [Some x] a
    value, with real arithmetic in place of rounding.  Every comparison
    with NaN is false, statistics skip NaN, arithmetic propagates it, as
    numpy and pandas do.  It carries the properties of order and shape,
    which rounding (a monotone function) does not disturb, and the
    statements that are explicitly about exact arithmetic.

    Frames.  A frame is column-major, like a pandas [DataFrame]: a row count
    and a list of columns, a column name being its position.  Rows are
    identified by position, which is what the default [RangeIndex] gives
    (a frame read by [pd.read_csv], as in this repository, or built from
    columns).

    Text.  A [str] is held as its UTF-8 bytes.

    Libraries.  pandas, numpy and scikit-learn calls are written out from
    their documented behaviour ([quantile] with linear interpolation,
    [mode], [fillna], [iloc], boolean indexing, [describe],
    [StandardScaler], the input validation and the no-missing-value path
    of [KNNImputer], the latin-1 encoding of header values by Starlette).
    The nearest-neighbour estimate itself and the report generator
    [processManager], which is not part of the sources at hand, are
    parameters.

    Layout: the model of the code, then the vocabulary of the properties
    with the example data, then the lemmas and theorems. *)

From Stdlib Require Import Strings.String Strings.Ascii Strings.Byte.
From Stdlib Require Import Reals Lra Lia List Arith Bool ZArith QArith Qround Qreals.
From Stdlib Require Import Sorting.Sorted.
From Stdlib Require Floats Uint63 DecimalString HexadecimalString.
Import ListNotations.

(** ** Errors *)

(** A call either returns a value or raises an exception of type [E]. *)
Inductive result (E A : Type) : Type :=
| Ok (a : A)
| Raise (e : E).
Arguments Ok {E A} a.
Arguments Raise {E A} e.

Definition bind {E A B} (r : result E A) (k : A -> result E B) : result E B :=
  match r with
  | Ok a => k a
  | Raise e => Raise e
  end.

(** The exceptions the pipeline's library calls raise. *)
Inductive pyexc : Type :=
| ValueError
| IndexError
| TypeError.

Declare Scope result_scope.
Delimit Scope result_scope with result.
Notation "x <- r ;; k" := (bind r (fun x => k))
  (at level 61, r at next level, right associativity) : result_scope.

(** ** The exact reading: cells and series *)

Open Scope R_scope.

Definition cell := option R.
Definition Series := list cell.

Definition Rleb (x y : R) : bool := if Rle_dec x y then true else false.
Definition Rltb (x y : R) : bool := if Rlt_dec x y then true else false.

(** [a < b] and [a > b] on floats: false as soon as one side is NaN. *)
Definition cell_lt (a b : cell) : bool :=
  match a, b with
  | Some x, Some y => Rltb x y
  | _, _ => false
  end.
Definition cell_gt (a b : cell) : bool := cell_lt b a.

Definition lift2 (f : R -> R -> R) (a b : cell) : cell :=
  match a, b with
  | Some x, Some y => Some (f x y)
  | _, _ => None
  end.

Declare Scope cell_scope.
Delimit Scope cell_scope with cell.
Notation "a + b" := (lift2 Rplus a b) : cell_scope.
Notation "a - b" := (lift2 Rminus a b) : cell_scope.
Notation "a * b" := (lift2 Rmult a b) : cell_scope.
Notation "a <? b" := (cell_lt a b) (at level 70) : cell_scope.
Notation "a >? b" := (cell_gt a b) (at level 70) : cell_scope.

(** The values of a series that are not NaN, in order ([skipna=True]). *)
Fixpoint dropna {A} (s : list (option A)) : list A :=
  match s with
  | [] => []
  | Some x :: s' => x :: dropna s'
  | None :: s' => dropna s'
  end.

Fixpoint sum (l : list R) : R :=
  match l with
  | [] => 0
  | x :: l' => x + sum l'
  end.

(** [Series.mean()]: NaN on a series without values. *)
Definition mean (s : Series) : cell :=
  match dropna s with
  | [] => None
  | (_ :: _) as xs => Some (sum xs / INR (length xs))
  end.

(** Ascending sort of the values, by insertion (the sorted list does not
    depend on the algorithm). *)
Fixpoint insert_sorted (x : R) (l : list R) : list R :=
  match l with
  | [] => [x]
  | y :: l' => if Rleb x y then x :: l else y :: insert_sorted x l'
  end.

Fixpoint sort (l : list R) : list R :=
  match l with
  | [] => []
  | x :: l' => insert_sorted x (sort l')
  end.

Definition lerp (a b t : R) : R := a + (b - a) * t.

(** [Series.quantile(q)] with the default linear interpolation: on the
    sorted values [xs] of length [n], the virtual index is [(n-1)*q]; the
    result interpolates between its floor and the next position (capped at
    [n-1]).  NaN when there is no value.  The level [q] is a rational, as
    the literals [0.25] and [0.75] are. *)
Definition quantile (q : Q) (s : Series) : cell :=
  match sort (dropna s) with
  | [] => None
  | (x0 :: _) as xs =>
      let n := length xs in
      let h := (inject_Z (Z.of_nat (n - 1)) * q)%Q in
      let i := Z.to_nat (Qfloor h) in
      let g := Q2R (h - inject_Z (Qfloor h)) in
      Some (lerp (nth i xs x0) (nth (Nat.min (S i) (n - 1)) xs x0) g)
  end.

(** [np.where(cond, value, series)]. *)
Definition np_where (cond : list bool) (v : cell) (s : Series) : Series :=
  map (fun '(c, x) => if (c : bool) then v else x) (combine cond s).

(** ** Outlier replacement: the body of the pipeline's loop, for one feature *)

Definition replace_outliers (col : Series) : Series :=
  let Q1 := quantile 0.25 col in
  let Q3 := quantile 0.75 col in
  let IQR := (Q3 - Q1)%cell in
  let lower_bound := (Q1 - Some 1.5 * IQR)%cell in
  let upper_bound := (Q3 + Some 1.5 * IQR)%cell in
  np_where (map (fun x => (x <? lower_bound)%cell || (x >? upper_bound)%cell) col)
           (mean col) col.

(** [data[feature] = column]: the column at position [j] is replaced. *)
Fixpoint set_column {A} (j : nat) (col : A) (cols : list A) : list A :=
  match cols, j with
  | [], _ => []
  | _ :: cols', O => col :: cols'
  | c :: cols', S j' => c :: set_column j' col cols'
  end.

(** The loop [for feature in numeric_features] over the numeric columns of
    [data], each iteration rewriting one column in place. *)
Definition replace_outliers_loop (cols : list Series) : list Series :=
  fold_left
    (fun data feature =>
       match nth_error data feature with
       | Some col => set_column feature (replace_outliers col) data
       | None => data
       end)
    (seq 0 (length cols)) cols.

(** ** Frames *)

Record Frame (A : Type) : Type := mkFrame {
  nrows : nat;
  columns : list (list (option A))
}.

Arguments mkFrame {A} _ _.
Arguments nrows {A} _.
Arguments columns {A} _.

Definition DataFrame := Frame R.

Definition wf_frame {A} (f : Frame A) : Prop :=
  Forall (fun c => length c = nrows f) (columns f).

(** ** The standalone row filter [handle_outliers_iqr] *)

(** [DataFrame.quantile(q)]: one value per column. *)
Definition df_quantile (q : Q) (data : DataFrame) : Series :=
  map (quantile q) (columns data).

(** Arithmetic between two series over the same labels, and with a scalar. *)
Definition series_zip (f : cell -> cell -> cell) (a b : Series) : Series :=
  map (fun '(x, y) => f x y) (combine a b).
Definition scalar_mul (k : R) (a : Series) : Series :=
  map (fun x => (Some k * x)%cell) a.

(** [data < bounds] and [data > bounds]: each column is compared with the
    entry of [bounds] carrying its label. *)
Definition df_compare (cmp : cell -> cell -> bool) (data : DataFrame)
    (bounds : Series) : list (list bool) :=
  map (fun '(col, b) => map (fun x => cmp x b) col) (combine (columns data) bounds).

Definition df_or (a b : list (list bool)) : list (list bool) :=
  map (fun '(ca, cb) => map (fun '(x, y) => x || y) (combine ca cb)) (combine a b).

(** [mask.any(axis=1)]: for each of the [n] rows, is some column true? *)
Definition any_axis1 (n : nat) (mask : list (list bool)) : list bool :=
  map (fun i => existsb (fun c => nth i c false) mask) (seq 0 n).

(** Boolean indexing [data[keep]]: the rows whose flag is true. *)
Fixpoint select {A} (keep : list bool) (l : list A) : list A :=
  match keep, l with
  | true :: keep', x :: l' => x :: select keep' l'
  | false :: keep', _ :: l' => select keep' l'
  | _, _ => []
  end.

Definition boolean_index {A} (data : Frame A) (keep : list bool) : Frame A :=
  {| nrows := length (filter (fun b => b) keep);
     columns := map (select keep) (columns data) |}.

(** Lines 52 to 59 on a frame of numeric columns, in the exact reading.  What
    the function does with a text column, and the rounded bounds, are in
    [F64.handle_outliers_iqr] below. *)
Definition handle_outliers_iqr (data : DataFrame) (threshold : R) : DataFrame :=
  let Q1 := df_quantile 0.25 data in
  let Q3 := df_quantile 0.75 data in
  let IQR := series_zip (lift2 Rminus) Q3 Q1 in
  let lower_bound := series_zip (lift2 Rminus) Q1 (scalar_mul threshold IQR) in
  let upper_bound := series_zip (lift2 Rplus) Q3 (scalar_mul threshold IQR) in
  boolean_index data
    (map negb
       (any_axis1 (nrows data)
          (df_or (df_compare cell_lt data lower_bound)
                 (df_compare cell_gt data upper_bound)))).

(** The call without a threshold argument: [threshold=1.5]. *)
Definition handle_outliers_iqr_default (data : DataFrame) : DataFrame :=
  handle_outliers_iqr data 1.5.

(** ** Categorical columns: mode and [fillna] *)

Definition ObjSeries := list (option string).

(** Ascending sort of strings (code-point order), by insertion. *)
Fixpoint insert_str (x : string) (l : list string) : list string :=
  match l with
  | [] => [x]
  | y :: l' => if String.leb x y then x :: l else y :: insert_str x l'
  end.

Fixpoint sort_str (l : list string) : list string :=
  match l with
  | [] => []
  | x :: l' => insert_str x (sort_str l')
  end.

Definition count (vals : list string) (v : string) : nat :=
  count_occ string_dec vals v.

(** [Series.mode()]: the values (NaN dropped) that occur most often, each
    once, sorted. *)
Definition series_mode (s : ObjSeries) : list string :=
  let vals := dropna s in
  let top := fold_right Nat.max 0%nat (map (count vals) vals) in
  sort_str (nodup string_dec (filter (fun v => count vals v =? top)%nat vals)).

Definition pad {A} (k : nat) (l : list (option A)) : list (option A) :=
  l ++ repeat None (k - length l).

(** [DataFrame.mode()]: the modes of each column, one under the other; the
    frame is as long as the longest list of modes, shorter ones are padded
    with NaN.  Without columns, or without a mode in any column, it has no
    row. *)
Definition frame_mode (cols : list ObjSeries) : Frame string :=
  let modes := map series_mode cols in
  let k := fold_right Nat.max 0%nat (map (@length string) modes) in
  {| nrows := k; columns := map (fun m => pad k (map Some m)) modes |}.

(** [frame.iloc[0]]: the first row, [IndexError] on a frame without rows. *)
Definition iloc0 {A} (f : Frame A) : result pyexc (list (option A)) :=
  if (nrows f =? 0)%nat then Raise IndexError
  else Ok (map (fun c => nth 0 c None) (columns f)).

(** [frame.fillna(values)]: in each column, a missing cell takes the entry
    of [values] for that column. *)
Definition fillna {A} (cols : list (list (option A))) (values : list (option A))
    : list (list (option A)) :=
  map (fun '(col, v) => map (fun x => match x with Some _ => x | None => v end) col)
      (combine cols values).

(** The categorical step of the pipeline:
    [cols.fillna(cols.mode().iloc[0])]. *)
Definition fill_categorical (cols : list ObjSeries) : result pyexc (list ObjSeries) :=
  (modes <- iloc0 (frame_mode cols) ;; Ok (fillna cols modes))%result.

(** ** Standardisation: [StandardScaler().fit_transform] *)

Definition isnan {A} (x : option A) : bool :=
  match x with Some _ => false | None => true end.

(** Population variance of the values ([ddof=0]). *)
Definition variance (s : Series) : cell :=
  match dropna s with
  | [] => None
  | (_ :: _) as xs =>
      let m := sum xs / INR (length xs) in
      Some (sum (map (fun x => (x - m) * (x - m)) xs) / INR (length xs))
  end.

(** [scale_]: the standard deviation, with 1 in place of 0 for a constant
    column. *)
Definition scale_ (s : Series) : cell :=
  match variance s with
  | None => None
  | Some v => if Req_dec_T v 0 then Some 1 else Some (sqrt v)
  end.

Definition standardize (s : Series) : Series :=
  map (fun x => lift2 Rdiv (x - mean s)%cell (scale_ s)) s.

(** Input validation shared by the sklearn estimators: at least one sample
    and one feature. *)
Definition check_array (X : DataFrame) : result pyexc unit :=
  if (nrows X =? 0)%nat then Raise ValueError
  else if (length (columns X) =? 0)%nat then Raise ValueError
  else Ok tt.

Definition scaler_fit_transform (X : DataFrame) : result pyexc (list Series) :=
  (_ <- check_array X ;; Ok (map standardize (columns X)))%result.

(** ** The pipeline *)

(** The dataset, split by dtype as [select_dtypes] does: the float and int
    columns, and the object columns (strings, [None] for a missing cell).
    Columns of any other dtype are neither read nor written. *)
Record Dataset : Type := mkDataset {
  n_rows : nat;
  numeric_features : list Series;
  categorical_features : list ObjSeries
}.

Definition wf_dataset (d : Dataset) : Prop :=
  Forall (fun c => length c = n_rows d) (numeric_features d) /\
  Forall (fun c => length c = n_rows d) (categorical_features d).

Section Pipeline.

(** The k-nearest-neighbours estimate itself is sklearn's: it maps the
    columns that have a value to columns without NaN. *)
Variable knn_impute : list Series -> list (list R).

(** [KNNImputer().fit_transform(X)]: columns without any value are
    dropped; when nothing else is missing the remaining columns are
    returned as they are. *)
Definition knn_fit_transform (X : DataFrame) : result pyexc (list Series) :=
  (_ <- check_array X ;;
   let valid := filter (fun c => negb (forallb isnan c)) (columns X) in
   if negb (existsb (existsb isnan) valid) then Ok valid
   else Ok (map (map Some) (knn_impute valid)))%result.

(** [pd.DataFrame(array, columns=names)]: [ValueError] when the array
    does not have one column per name. *)
Definition handle_missing_values (data : DataFrame) : result pyexc DataFrame :=
  (data_imputed <- knn_fit_transform data ;;
   if (length data_imputed =? length (columns data))%nat
   then Ok {| nrows := nrows data; columns := data_imputed |}
   else Raise ValueError)%result.

Definition data_preprocessing_pipeline (data : Dataset) : result pyexc Dataset :=
  ((* numeric features: KNN imputation *)
   imputed <- handle_missing_values
                {| nrows := n_rows data; columns := numeric_features data |} ;;
   (* categorical features: fill with the mode *)
   categorical <- fill_categorical (categorical_features data) ;;
   (* outliers, feature by feature *)
   let numeric := replace_outliers_loop (columns imputed) in
   (* standardisation *)
   scaled <- scaler_fit_transform {| nrows := n_rows data; columns := numeric |} ;;
   Ok {| n_rows := n_rows data;
         numeric_features := scaled;
         categorical_features := categorical |})%result.

End Pipeline.

(** ** The numeric code in binary64 arithmetic *)

(** The same code over IEEE 754 binary64 numbers (Rocq's primitive
    floats): a cell is a float, NaN being pandas' missing value; [-], [*],
    [+], [<] and [>] are the operations of the machine, rounding included.
    The numeric routines of pandas and scikit-learn that the code calls
    ([Series.quantile], [Series.mean], [KNNImputer], [StandardScaler]) are
    parameters of the functions that call them; their documented
    algorithms are written out after the code, for evaluating examples. *)

Module F64.

Import PrimFloat.
Open Scope float_scope.

Definition Series := list float.

(** [np.isnan] and [np.isinf]. *)
Definition isnan (x : float) : bool := is_nan x.
Definition isinf (x : float) : bool := is_infinity x.

(** [np.where(cond, value, series)]. *)
Definition np_where (cond : list bool) (v : float) (s : Series) : Series :=
  map (fun '(c, x) => if (c : bool) then v else x) (combine cond s).

(** A frame of float columns, column-major. *)
Record DataFrame : Type := mkFrame {
  nrows : nat;
  columns : list Series
}.

Definition wf_frame (f : DataFrame) : Prop :=
  Forall (fun c => length c = nrows f) (columns f).

(** A column of a table as [pd.read_csv] returns it: numbers (an integer
    column is held by the floats of its values), or text. *)
Inductive column : Type :=
| NumCol (values : Series)
| ObjCol (values : ObjSeries).

Record Table : Type := mkTable {
  t_nrows : nat;
  t_columns : list column
}.

(** The columns of a table when they are all numeric. *)
Fixpoint float_columns (cols : list column) : option (list Series) :=
  match cols with
  | [] => Some []
  | NumCol s :: cols' => option_map (cons s) (float_columns cols')
  | ObjCol _ :: _ => None
  end.

Section Library.

(** [Series.quantile(q)] and [Series.mean()] of pandas. *)
Variable quantile : float -> Series -> float.
Variable mean : Series -> float.

(** *** Outlier replacement: the body of the pipeline's loop *)

Definition replace_outliers (col : Series) : Series :=
  let Q1 := quantile 0.25 col in
  let Q3 := quantile 0.75 col in
  let IQR := Q3 - Q1 in
  let lower_bound := Q1 - (1.5 * IQR) in
  let upper_bound := Q3 + (1.5 * IQR) in
  np_where (map (fun x => (x <? lower_bound) || (upper_bound <? x)) col)
           (mean col) col.

(** The loop [for feature in numeric_features]. *)
Definition replace_outliers_loop (cols : list Series) : list Series :=
  fold_left
    (fun data feature =>
       match nth_error data feature with
       | Some col => set_column feature (replace_outliers col) data
       | None => data
       end)
    (seq 0 (length cols)) cols.

(** *** The standalone row filter *)

(** [DataFrame.quantile(q)]: one value per column. *)
Definition df_quantile (q : float) (data : DataFrame) : Series :=
  map (quantile q) (columns data).

Definition series_zip (f : float -> float -> float) (a b : Series) : Series :=
  map (fun '(x, y) => f x y) (combine a b).
Definition scalar_mul (k : float) (a : Series) : Series :=
  map (fun x => k * x) a.

(** [data < bounds] and [data > bounds], column by column. *)
Definition df_compare (cmp : float -> float -> bool) (data : DataFrame)
    (bounds : Series) : list (list bool) :=
  map (fun '(col, b) => map (fun x => cmp x b) col) (combine (columns data) bounds).

Definition boolean_index (data : DataFrame) (keep : list bool) : DataFrame :=
  {| nrows := length (filter (fun b => b) keep);
     columns := map (select keep) (columns data) |}.

(** Lines 52 to 59 on a frame of float columns. *)
Definition filter_rows (data : DataFrame) (threshold : float) : DataFrame :=
  let Q1 := df_quantile 0.25 data in
  let Q3 := df_quantile 0.75 data in
  let IQR := series_zip sub Q3 Q1 in
  let lower_bound := series_zip sub Q1 (scalar_mul threshold IQR) in
  let upper_bound := series_zip add Q3 (scalar_mul threshold IQR) in
  boolean_index data
    (map negb
       (any_axis1 (nrows data)
          (df_or (df_compare ltb data lower_bound)
                 (df_compare (fun x b => b <? x) data upper_bound)))).

(** [handle_outliers_iqr(data, threshold)].  The function does not select
    the numeric columns: on a table with a text column pandas raises
    [TypeError], in [quantile] or, in versions whose [quantile] skips such
    columns, in the comparison of the text with the bounds. *)
Definition handle_outliers_iqr (data : Table) (threshold : float)
    : result pyexc DataFrame :=
  match float_columns (t_columns data) with
  | Some cols => Ok (filter_rows {| nrows := t_nrows data; columns := cols |} threshold)
  | None => Raise TypeError
  end.

(** The call without a threshold argument: [threshold=1.5]. *)
Definition handle_outliers_iqr_default (data : Table) : result pyexc DataFrame :=
  handle_outliers_iqr data 1.5.

(** *** The pipeline *)

Record Dataset : Type := mkDataset {
  n_rows : nat;
  numeric_features : list Series;
  categorical_features : list ObjSeries
}.

Definition wf_dataset (d : Dataset) : Prop :=
  Forall (fun c => length c = n_rows d) (numeric_features d) /\
  Forall (fun c => length c = n_rows d) (categorical_features d).

(** The k-nearest-neighbours estimate of sklearn, on the columns that
    have a value, and [StandardScaler().fit_transform]. *)
Variable knn_impute : list Series -> list Series.
Variable scaler_fit_transform : DataFrame -> result pyexc (list Series).

(** The input validation of [KNNImputer]: at least one sample and one
    feature, NaN allowed, infinity refused. *)
Definition check_array (X : DataFrame) : result pyexc unit :=
  if (nrows X =? 0)%nat then Raise ValueError
  else if (length (columns X) =? 0)%nat then Raise ValueError
  else if existsb (existsb isinf) (columns X) then Raise ValueError
  else Ok tt.

(** [KNNImputer().fit_transform(X)]: columns without any value are
    dropped; when nothing else is missing the remaining columns are
    returned as they are. *)
Definition knn_fit_transform (X : DataFrame) : result pyexc (list Series) :=
  (_ <- check_array X ;;
   let valid := filter (fun c => negb (forallb isnan c)) (columns X) in
   if negb (existsb (existsb isnan) valid) then Ok valid
   else Ok (knn_impute valid))%result.

(** [pd.DataFrame(array, columns=names)]: [ValueError] when the array
    does not have one column per name. *)
Definition handle_missing_values (data : DataFrame) : result pyexc DataFrame :=
  (data_imputed <- knn_fit_transform data ;;
   if (length data_imputed =? length (columns data))%nat
   then Ok {| nrows := nrows data; columns := data_imputed |}
   else Raise ValueError)%result.

Definition data_preprocessing_pipeline (data : Dataset) : result pyexc Dataset :=
  ((* numeric features: KNN imputation *)
   imputed <- handle_missing_values
                {| nrows := n_rows data; columns := numeric_features data |} ;;
   (* categorical features: fill with the mode *)
   categorical <- fill_categorical (categorical_features data) ;;
   (* outliers, feature by feature *)
   let numeric := replace_outliers_loop (columns imputed) in
   (* standardisation *)
   scaled <- scaler_fit_transform {| nrows := n_rows data; columns := numeric |} ;;
   Ok {| n_rows := n_rows data;
         numeric_features := scaled;
         categorical_features := categorical |})%result.

End Library.

(** *** The library routines, from their documented algorithms

    Written out in binary64 for evaluating examples: numpy's quantile with
    linear interpolation as pandas calls it, the mean of the values that
    are not NaN, and the standardisation of sklearn.  The order of the
    additions in a sum is numpy's for fewer than eight values. *)

Definition of_nat (n : nat) : float := of_uint63 (Uint63.of_Z (Z.of_nat n)).

(** The integer part of a float that is not negative. *)
Definition floor_nat (x : float) : nat :=
  match FloatOps.Prim2SF x with
  | SpecFloat.S754_finite false m e =>
      Z.to_nat (if (0 <=? e)%Z then Z.pos m * 2 ^ e else Z.pos m / 2 ^ (- e))%Z
  | _ => 0%nat
  end.

Definition dropna (s : Series) : list float :=
  filter (fun x => negb (isnan x)) s.

Fixpoint insert_sorted (x : float) (l : list float) : list float :=
  match l with
  | [] => [x]
  | y :: l' => if x <=? y then x :: l else y :: insert_sorted x l'
  end.

Fixpoint sort (l : list float) : list float :=
  match l with
  | [] => []
  | x :: l' => insert_sorted x (sort l')
  end.

(** numpy's [_lerp]: from [a] below one half, from [b] above. *)
Definition lerp (a b t : float) : float :=
  let diff_b_a := b - a in
  if t <? 0.5 then a + diff_b_a * t else b - diff_b_a * (1 - t).

(** [Series.quantile(q)]: pandas hands [q * 100] to [np.percentile], which
    divides it by 100; on the [n] sorted values the virtual index is
    [(n - 1) * q]. *)
Definition linear_quantile (q : float) (s : Series) : float :=
  match sort (dropna s) with
  | [] => nan
  | (x0 :: _) as xs =>
      let n := length xs in
      let q := q * 100 / 100 in
      let virtual_index := of_nat (n - 1) * q in
      let previous := floor_nat virtual_index in
      let gamma := virtual_index - of_nat previous in
      lerp (nth previous xs x0) (nth (Nat.min (S previous) (n - 1)) xs x0) gamma
  end.

Definition sum (l : list float) : float := fold_left add l 0.

(** [Series.mean()]: NaN on a series without values. *)
Definition nanmean (s : Series) : float :=
  match dropna s with
  | [] => nan
  | (_ :: _) as xs => sum xs / of_nat (length xs)
  end.

(** [StandardScaler] on one column: the mean, the population variance
    (the sum of the squared deviations, less the square of the sum of the
    deviations over [n], over [n]), and the column less its mean divided
    by the square root of the variance, or by 1 when that is 0.  (Recent
    versions also divide by 1 a column whose variance is within rounding
    of 0.) *)
Definition standardize (s : Series) : Series :=
  let n := of_nat (length (dropna s)) in
  let mean_ := nanmean s in
  let temp := map (fun x => x - mean_) (dropna s) in
  let correction := sum temp in
  let var_ := (sum (map (fun t => t * t) temp) - correction * correction / n) / n in
  let scale_ := if sqrt var_ =? 0 then 1 else sqrt var_ in
  map (fun x => (x - mean_) / scale_) s.

Definition standard_scaler (X : DataFrame) : result pyexc (list Series) :=
  if (nrows X =? 0)%nat then Raise ValueError
  else if (length (columns X) =? 0)%nat then Raise ValueError
  else if existsb (existsb isinf) (columns X) then Raise ValueError
  else Ok (map standardize (columns X)).

(** The estimate is not needed on complete data. *)
Definition knn_unused (cols : list Series) : list Series := cols.

End F64.

(** ** The conversion endpoint of [process.py] *)

Module Api.

Open Scope string_scope.

(** [s.endswith(suffix)]. *)
Fixpoint endswith (s suffix : string) : bool :=
  (s =? suffix) ||
  match s with
  | EmptyString => false
  | String _ s' => endswith s' suffix
  end.

(** The text before the last ['.'], when there is one. *)
Fixpoint before_last_dot (s : string) : option string :=
  match s with
  | EmptyString => None
  | String c s' =>
      match before_last_dot s' with
      | Some h => Some (String c h)
      | None => if (c =? ".")%char then Some EmptyString else None
      end
  end.

(** [s.rsplit('.', 1)[0]]: the whole string when it has no ['.']. *)
Definition rsplit_dot_head (s : string) : string :=
  match before_last_dot s with
  | Some h => h
  | None => s
  end.

(** *** Text and its latin-1 encoding

    A [str] is held as its UTF-8 bytes, so [endswith], [rsplit] and [++]
    act on it as they do on the [str] (the suffixes and separators at hand
    are ASCII).  [code_points] gives back the characters.  The bytes of a
    [str] are well-formed UTF-8; a byte outside a well-formed sequence is
    read as U+FFFD. *)

Definition utf8_start (b : N) : list N * (nat * N) :=
  (if b <? 128 then ([b], (0%nat, 0))
   else if b <? 192 then ([65533], (0%nat, 0))
   else if b <? 224 then ([], (1%nat, b - 192))
   else if b <? 240 then ([], (2%nat, b - 224))
   else if b <? 248 then ([], (3%nat, b - 240))
   else ([65533], (0%nat, 0)))%N.

(** One byte read with [pending] continuation bytes still expected for
    the character whose leading bits are [acc]: the characters completed,
    and the new state. *)
Definition utf8_feed (pending : nat) (acc : N) (b : N) : list N * (nat * N) :=
  match pending with
  | O => utf8_start b
  | S k =>
      if ((128 <=? b) && (b <? 192))%N then
        let acc' := (acc * 64 + (b - 128))%N in
        match k with
        | O => ([acc'], (0%nat, 0%N))
        | S _ => ([], (k, acc'))
        end
      else let '(out, st) := utf8_start b in (65533%N :: out, st)
  end.

Fixpoint utf8_decode (pending : nat) (acc : N) (s : string) : list N :=
  match s with
  | EmptyString => match pending with O => [] | S _ => [65533%N] end
  | String c s' =>
      let '(out, (k, a)) := utf8_feed pending acc (N_of_ascii c) in
      (out ++ utf8_decode k a s')%list
  end.

Definition code_points (s : string) : list N := utf8_decode 0 0 s.

Fixpoint take_while {A} (p : A -> bool) (l : list A) : list A :=
  match l with
  | [] => []
  | x :: l' => if p x then x :: take_while p l' else []
  end.

(** The first run of characters that latin-1 cannot hold (code point 256
    and above): its position and the characters. *)
Fixpoint unencodable_run (pos : nat) (cps : list N) : option (nat * list N) :=
  match cps with
  | [] => None
  | c :: cps' =>
      if (c <? 256)%N then unencodable_run (S pos) cps'
      else Some (pos, c :: take_while (fun c => negb (c <? 256)%N) cps')
  end.

Definition decimal (n : nat) : string :=
  DecimalString.NilZero.string_of_uint (Nat.to_uint n).

(** [%04x] and [%08x]. *)
Definition hex_padded (width : nat) (n : N) : string :=
  let digits := HexadecimalString.NilZero.string_of_uint (N.to_hex_uint n) in
  string_of_list_ascii (repeat "0"%char (width - String.length digits)) ++ digits.

(** [str(e)] of the [UnicodeEncodeError] for the run [run] at [start]. *)
Definition unicode_encode_error (start : nat) (run : list N) : string :=
  match run with
  | [c] =>
      "'latin-1' codec can't encode character '"
      ++ (if (c <=? 65535)%N then "\u" ++ hex_padded 4 c else "\U" ++ hex_padded 8 c)
      ++ "' in position " ++ decimal start ++ ": ordinal not in range(256)"
  | _ =>
      "'latin-1' codec can't encode characters in position "
      ++ decimal start ++ "-" ++ decimal (start + length run - 1)
      ++ ": ordinal not in range(256)"
  end.

(** [s.encode("latin-1")]: one byte per character, [UnicodeEncodeError]
    at the first run of characters above 255. *)
Definition encode_latin1 (s : string) : result string (list N) :=
  match unencodable_run 0 (code_points s) with
  | None => Ok (code_points s)
  | Some (start, run) => Raise (unicode_encode_error start run)
  end.

(** The characters of [s] are all characters of latin-1. *)
Definition latin1 (s : string) : bool :=
  forallb (fun c => (c <? 256)%N) (code_points s).

Record UploadFile : Type := mkUpload {
  filename : string;
  content : list byte
}.

(** What the client gets: the streamed spreadsheet, or the JSON error
    that FastAPI builds from a raised [HTTPException]. *)
Inductive Outcome : Type :=
| StreamingResponse (body : list byte) (media_type : string)
    (headers : list (string * string))
| HTTPException (status_code : nat) (detail : string).

(** The status line; a [StreamingResponse] built without [status_code]
    has 200. *)
Definition status (o : Outcome) : nat :=
  match o with
  | StreamingResponse _ _ _ => 200
  | HTTPException code _ => code
  end.

(** The operations the handler performs on the upload and the workbook,
    in the order it performs them. *)
Inductive event : Type :=
| EvRead | EvDecode | EvReadCsv | EvOpenWriter
| EvDataSheet | EvSummarySheet | EvMissingValuesGraph | EvOutlierGraphs
| EvCloseWriter | EvSeek.

(** Handler code: it extends the log of operations and returns, or raises
    an exception, kept as its message [str(e)]. *)
Definition M (A : Type) : Type := list event -> list event * result string A.

Definition ret {A} (a : A) : M A := fun log => (log, Ok a).

Definition bindM {A B} (m : M A) (k : A -> M B) : M B :=
  fun log =>
    match m log with
    | (log', Ok a) => k a log'
    | (log', Raise e) => (log', Raise e)
    end.

(** One operation: logged, then its result or exception. *)
Definition call {A} (ev : event) (r : result string A) : M A :=
  fun log => ((log ++ [ev])%list, r).

(** A computation that is not an operation on the upload or the workbook:
    its result or exception, the log left as it is. *)
Definition lift {A} (r : result string A) : M A :=
  fun log => (log, r).

(** [try: body  except Exception as e: handler(str(e))]. *)
Definition try_except {A} (body : M A) (handler : string -> M A) : M A :=
  fun log =>
    match body log with
    | (log', Ok a) => (log', Ok a)
    | (log', Raise e) => handler e log'
    end.

Notation "x <- m ;; k" := (bindM m (fun x => k))
  (at level 61, m at next level, right associativity).

Section Handler.

(** The parsed table and the workbook under construction. *)
Variables Table Workbook : Type.

(** Library calls and the report generator ([processManager]), each
    returning or raising. *)
Variable decode_utf8 : list byte -> result string string.
Variable read_csv : string -> result string Table.
Variable excel_writer : result string Workbook.
Variable create_data_sheet : Table -> Workbook -> result string Workbook.
Variable create_summary_sheet : Table -> Workbook -> result string Workbook.
Variable create_missing_values_graph : Table -> Workbook -> result string Workbook.
Variable create_outlier_graphs : Table -> Workbook -> result string Workbook.
Variable close_writer : Workbook -> result string (list byte).

(** [with pd.ExcelWriter(...) as writer: body]: the writer is opened;
    leaving the block closes it, which writes the workbook into the
    buffer; when the body raised, the writer is closed all the same and
    the exception goes on. *)
Definition with_excel_writer (body : Workbook -> M Workbook) : M (list byte) :=
  writer <- call EvOpenWriter excel_writer ;;
  fun log =>
    match body writer log with
    | (log', Ok w') => call EvCloseWriter (close_writer w') log'
    | (log', Raise e) => ((log' ++ [EvCloseWriter])%list, Raise e)
    end.

(** The value of the [Content-Disposition] header for an upload named
    [name]. *)
Definition content_disposition (name : string) : string :=
  let excel_filename :=
    rsplit_dot_head name ++ "_with_summary_missing_values_and_outliers.xlsx" in
  "attachment; filename=" ++ excel_filename.

(** The [try] block.  Building the [StreamingResponse] is its last step:
    Starlette encodes the header values as latin-1 there, so a header
    value with a character above 255 raises [UnicodeEncodeError] inside
    the [try]. *)
Definition convert (file : UploadFile) : M Outcome :=
  contents <- call EvRead (Ok (content file)) ;;
  df <- (text <- call EvDecode (decode_utf8 contents) ;;
         call EvReadCsv (read_csv text)) ;;
  excel_file <-
    with_excel_writer (fun writer =>
      w1 <- call EvDataSheet (create_data_sheet df writer) ;;
      w2 <- call EvSummarySheet (create_summary_sheet df w1) ;;
      w3 <- call EvMissingValuesGraph (create_missing_values_graph df w2) ;;
      call EvOutlierGraphs (create_outlier_graphs df w3)) ;;
  _ <- call EvSeek (Ok tt) ;;
  _ <- lift (encode_latin1 (content_disposition (filename file))) ;;
  ret (StreamingResponse excel_file
         "application/vnd.openxmlformats-officedocument.spreadsheetml.sheet"
         [("Content-Disposition", content_disposition (filename file))]).

Definition csv_to_excel_with_description (file : UploadFile) : M Outcome :=
  if negb (endswith (filename file) ".csv")
  then ret (HTTPException 400 "Only CSV files are allowed")
  else try_except (convert file)
         (fun e => ret (HTTPException 500 ("An error occurred: " ++ e))).

(** From the specification's words: decoding, report generation or
    spreadsheet writing raises an exception with message [msg]; every
    step before the failing one has returned. *)
Inductive raises (file : UploadFile) (msg : string) : Prop :=
| raises_decode :
    decode_utf8 (content file) = Raise msg -> raises file msg
| raises_read_csv text :
    decode_utf8 (content file) = Ok text ->
    read_csv text = Raise msg -> raises file msg
| raises_writer text (df : Table) :
    decode_utf8 (content file) = Ok text -> read_csv text = Ok df ->
    excel_writer = Raise msg -> raises file msg
| raises_data_sheet text df w :
    decode_utf8 (content file) = Ok text -> read_csv text = Ok df ->
    excel_writer = Ok w ->
    create_data_sheet df w = Raise msg -> raises file msg
| raises_summary_sheet text df w w1 :
    decode_utf8 (content file) = Ok text -> read_csv text = Ok df ->
    excel_writer = Ok w -> create_data_sheet df w = Ok w1 ->
    create_summary_sheet df w1 = Raise msg -> raises file msg
| raises_missing_values_graph text df w w1 w2 :
    decode_utf8 (content file) = Ok text -> read_csv text = Ok df ->
    excel_writer = Ok w -> create_data_sheet df w = Ok w1 ->
    create_summary_sheet df w1 = Ok w2 ->
    create_missing_values_graph df w2 = Raise msg -> raises file msg
| raises_outlier_graphs text df w w1 w2 w3 :
    decode_utf8 (content file) = Ok text -> read_csv text = Ok df ->
    excel_writer = Ok w -> create_data_sheet df w = Ok w1 ->
    create_summary_sheet df w1 = Ok w2 ->
    create_missing_values_graph df w2 = Ok w3 ->
    create_outlier_graphs df w3 = Raise msg -> raises file msg
| raises_close text df w w1 w2 w3 w4 :
    decode_utf8 (content file) = Ok text -> read_csv text = Ok df ->
    excel_writer = Ok w -> create_data_sheet df w = Ok w1 ->
    create_summary_sheet df w1 = Ok w2 ->
    create_missing_values_graph df w2 = Ok w3 ->
    create_outlier_graphs df w3 = Ok w4 ->
    close_writer w4 = Raise msg -> raises file msg.

End Handler.

Arguments with_excel_writer {Workbook} _ _ _ _.
Arguments convert {Table Workbook} _ _ _ _ _ _ _ _ _.
Arguments csv_to_excel_with_description {Table Workbook} _ _ _ _ _ _ _ _ _.
Arguments raises {Table Workbook} _ _ _ _ _ _ _ _ _ _.

(** A report generator that always succeeds: the workbook is the list of
    its sheet names. *)
Definition decode_ok (b : list byte) : result string string :=
  Ok (string_of_list_byte b).
Definition read_csv_ok (text : string) : result string string := Ok text.
Definition sheet_ok (name : string) (df : string) (w : list string)
    : result string (list string) := Ok (w ++ [name])%list.
Definition close_ok (w : list string) : result string (list byte) :=
  Ok (list_byte_of_string (String.concat "," w)).

(** A decoder that rejects its input. *)
Definition decode_fails (b : list byte) : result string string :=
  Raise "'utf-8' codec can't decode byte 0xff in position 0: invalid start byte".

Definition sales_csv : UploadFile :=
  {| filename := "sales.csv"; content := list_byte_of_string "a,b" |}.

Definition report_txt : UploadFile :=
  {| filename := "report.txt"; content := list_byte_of_string "a,b" |}.

(** A CSV file whose name has characters outside latin-1 (U+6570,
    U+636E). *)
Definition shuju_csv : UploadFile :=
  {| filename := "数据.csv"; content := list_byte_of_string "a,b" |}.

End Api.

(** ** The dashboard of [process.py] *)

Module Dash.

Open Scope string_scope.

(** A column of an uploaded table, by dtype: numbers, or text (with NaN for
    a missing cell in both). *)
Inductive column : Type :=
| NumCol (values : Series)
| ObjCol (values : ObjSeries).

(** A frame with column names, as [pd.read_csv] returns it. *)
Record Table : Type := mkTable {
  t_nrows : nat;
  t_columns : list (string * column)
}.

Definition column_length (c : column) : nat :=
  match c with
  | NumCol s => length s
  | ObjCol s => length s
  end.

Definition wf_table (df : Table) : Prop :=
  Forall (fun nc => column_length (snd nc) = t_nrows df) (t_columns df).

(** [column.isnull().sum()]. *)
Definition isnull_sum (c : column) : nat :=
  match c with
  | NumCol s => length (filter isnan s)
  | ObjCol s => length (filter isnan s)
  end.

(** One series of a figure, and the figure: the dictionaries that
    [create_missing_values_graph] builds. *)
Record Trace : Type := mkTrace {
  trace_x : list string;
  trace_y : list nat;
  trace_type : string;
  trace_name : string
}.

Record Figure : Type := mkFigure {
  fig_data : list Trace;
  fig_layout_title : string
}.

Definition create_missing_values_graph (df : Table) : Figure :=
  {| fig_data :=
       [ {| trace_x := map fst (t_columns df);
            trace_y := map (fun nc => isnull_sum (snd nc)) (t_columns df);
            trace_type := "bar";
            trace_name := "Missing Values" |} ];
     fig_layout_title := "Count of Missing Values by Column" |}.

(** *** [df.describe()] on numeric columns *)

Definition series_count (s : Series) : nat := length (dropna s).

(** [Series.min()] and [Series.max()]: NaN on a series without values. *)
Definition series_min (s : Series) : cell :=
  match dropna s with
  | [] => None
  | x :: xs => Some (fold_left Rmin xs x)
  end.

Definition series_max (s : Series) : cell :=
  match dropna s with
  | [] => None
  | x :: xs => Some (fold_left Rmax xs x)
  end.

(** [Series.std()], the sample standard deviation ([ddof=1]): NaN with
    fewer than two values. *)
Definition series_std (s : Series) : cell :=
  match dropna s with
  | [] => None
  | [_] => None
  | (_ :: _ :: _) as xs =>
      let n := length xs in
      let m := sum xs / INR n in
      Some (sqrt (sum (map (fun x => (x - m) * (x - m)) xs) / INR (n - 1)))
  end.

Definition stat_names : list string :=
  ["count"; "mean"; "std"; "min"; "25%"; "50%"; "75%"; "max"].

(** The statistics of one numeric column, in the order of [stat_names]. *)
Definition describe_series (s : Series) : list cell :=
  [ Some (INR (series_count s)); mean s; series_std s; series_min s;
    quantile 0.25 s; quantile 0.5 s; quantile 0.75 s; series_max s ].

(** A frame of floats with row labels. *)
Record LabelledFrame : Type := mkLabelled {
  lf_index : list string;
  lf_columns : list (string * Series)
}.

Definition numeric_columns (df : Table) : list (string * Series) :=
  flat_map (fun nc => match snd nc with
                      | NumCol s => [(fst nc, s)]
                      | ObjCol _ => []
                      end) (t_columns df).

(** [df.describe()] when [df] has a numeric column: the statistics of the
    numeric columns, one column each. *)
Definition describe (num : list (string * Series)) : LabelledFrame :=
  {| lf_index := stat_names;
     lf_columns := map (fun nc => (fst nc, describe_series (snd nc))) num |}.

(** [frame.T]. *)
Definition transpose (f : LabelledFrame) : LabelledFrame :=
  {| lf_index := map fst (lf_columns f);
     lf_columns :=
       map (fun kl => (snd kl, map (fun nc => nth (fst kl) (snd nc) None) (lf_columns f)))
           (combine (seq 0 (length (lf_index f))) (lf_index f)) |}.

(** [frame.reset_index()]: the row labels become the first column,
    named [index]. *)
Definition reset_index (f : LabelledFrame) : Table :=
  {| t_nrows := length (lf_index f);
     t_columns :=
       ("index", ObjCol (map Some (lf_index f)))
       :: map (fun nc => (fst nc, NumCol (snd nc))) (lf_columns f) |}.

(** [frame.rename(columns={old: new})]. *)
Definition rename (old new : string) (df : Table) : Table :=
  {| t_nrows := t_nrows df;
     t_columns := map (fun nc => (if fst nc =? old then new else fst nc, snd nc))
                      (t_columns df) |}.

(** *** The HTML components *)

Definition style : Type := list (string * string).

(** The content of a table cell. *)
Inductive value : Type :=
| Text (s : string)
| Number (x : R)
| NaN.

#[local] Unset Elimination Schemes.
Inductive component : Type :=
| Div (children : list component) (st : style)
| DivText (children : string) (st : style)
| HtmlTable (children : list component) (st : style) (className : string)
| Tr (children : list component)
| Th (children : string) (st : style)
| Td (children : value) (st : style)
| Graph (figure : Figure).
#[local] Set Elimination Schemes.

(** [df.iloc[i][col]]. *)
Definition iloc_value (i : nat) (c : column) : value :=
  match c with
  | NumCol s => match nth i s None with Some x => Number x | None => NaN end
  | ObjCol s => match nth i s None with Some t => Text t | None => NaN end
  end.

Definition cell_style : style :=
  [("border", "1px solid black"); ("padding", "5px"); ("textAlign", "center")].

Definition generate_html_table (df : Table) : component :=
  let table_title :=
    DivText "Statistics Summary Table"
      [("textAlign", "center"); ("fontWeight", "bold");
       ("fontSize", "20px"); ("marginBottom", "10px")] in
  let table_header :=
    [ Tr (map (fun col => Th (fst col) cell_style) (t_columns df)) ] in
  let table_body :=
    map (fun i => Tr (map (fun col => Td (iloc_value i (snd col)) cell_style)
                          (t_columns df)))
        (seq 0 (t_nrows df)) in
  let table :=
    HtmlTable (table_header ++ table_body)
      [("padding-top", "5px"); ("width", "60%"); ("margin", "15px auto");
       ("border", "1px solid black"); ("borderCollapse", "collapse");
       ("marginBottom", "50px")]
      "summary-table" in
  Div [table_title; table] [("textAlign", "center")].

(** [s.split(',')]: the pieces between the commas, one more than there are
    commas. *)
Fixpoint split_comma (s : string) : list string :=
  match s with
  | EmptyString => [EmptyString]
  | String c s' =>
      if (c =? ",")%char then EmptyString :: split_comma s'
      else match split_comma s' with
           | h :: t => String c h :: t
           | [] => [String c EmptyString]
           end
  end.

Section Callback.

(** [base64.b64decode] (its [binascii.Error] is a [ValueError]),
    [bytes.decode('utf-8')] and [pd.read_csv], the latter two with the
    message of the exception they raise. *)
Variable b64decode : string -> result pyexc (list byte).
Variable decode_utf8 : list byte -> result string string.
Variable read_csv : string -> result string Table.

(** [df.describe().T] with the row labels as first column, for a frame
    that has columns but no numeric one (pandas then describes the text
    columns). *)
Variable summary_of_objects : Table -> Table.

(** [ValueError] on a frame without columns: pandas cannot describe it. *)
Definition create_summary_dataframe (df : Table) : result pyexc Table :=
  if (length (t_columns df) =? 0)%nat then Raise ValueError
  else match numeric_columns df with
       | [] => Ok (rename "index" "Metric" (summary_of_objects df))
       | (_ :: _) as num =>
           let summary_df := transpose (describe num) in
           let summary_df := reset_index summary_df in
           Ok (rename "index" "Metric" summary_df)
       end.

Definition update_output (contents : option string) (filename : option string)
    : result pyexc (component * option component) :=
  match contents with
  | None =>
      Ok (DivText "Please Upload data :)"
            [("textAlign", "center"); ("fontWeight", "bold");
             ("fontSize", "20px"); ("marginBottom", "10px")],
          None)
  | Some contents =>
      match split_comma contents with
      | [content_type; content_string] =>
          (decoded <- b64decode content_string ;;
           match bind (decode_utf8 decoded) read_csv with
           | Raise e => Ok (DivText ("Error processing file: " ++ e) [], None)
           | Ok df =>
               let graph := Graph (create_missing_values_graph df) in
               summary_df <- create_summary_dataframe df ;;
               let summary_table := generate_html_table summary_df in
               Ok (graph, Some summary_table)
           end)%result
      | _ => Raise ValueError
      end
  end.

End Callback.

End Dash.

(** * Vocabulary of the properties, and example data *)

(** The column [1, 2, 3, 4, 100] of the specification. *)
Definition column_with_outlier : Series := map Some [1; 2; 3; 4; 100].

(** From the specification's words: the value of row [i] in column [col]
    lies outside [Q1 - threshold*IQR, Q3 + threshold*IQR], the quartiles
    being those of [col]. *)
Definition out_of_bounds (threshold : R) (col : Series) (i : nat) : Prop :=
  exists v q1 q3 : R,
    nth_error col i = Some (Some v) /\
    quantile 0.25 col = Some q1 /\
    quantile 0.75 col = Some q3 /\
    (v < q1 - threshold * (q3 - q1) \/ q3 + threshold * (q3 - q1) < v).

(** The frame made of the rows of [data] at the positions [kept], in that
    order, every column included. *)
Definition take_rows {A} (kept : list nat) (data : Frame A) : Frame A :=
  {| nrows := length kept;
     columns := map (fun col => map (fun i => nth i col None) kept) (columns data) |}.

(** The positions, counted from [k], at which [keep] is true. *)
Fixpoint positions (k : nat) (keep : list bool) : list nat :=
  match keep with
  | [] => []
  | true :: keep' => k :: positions (S k) keep'
  | false :: keep' => positions (S k) keep'
  end.

(** The bounds that [handle_outliers_iqr] computes for one column. *)
Definition lower_bound_of (threshold : R) (col : Series) : cell :=
  (quantile 0.25 col - Some threshold * (quantile 0.75 col - quantile 0.25 col))%cell.
Definition upper_bound_of (threshold : R) (col : Series) : cell :=
  (quantile 0.75 col + Some threshold * (quantile 0.75 col - quantile 0.25 col))%cell.

Definition flagged (threshold : R) (col : Series) (x : cell) : bool :=
  (x <? lower_bound_of threshold col)%cell || (x >? upper_bound_of threshold col)%cell.

(** The rows that [handle_outliers_iqr] keeps, as positions. *)
Definition kept_rows (data : DataFrame) (threshold : R) : list nat :=
  positions 0
    (map (fun i =>
            negb (existsb (fun col => nth i (map (flagged threshold col) col) false)
                    (columns data)))
         (seq 0 (nrows data))).

(** A table of two columns whose row 3 (counting from 0) holds 100 in the
    first column. *)
Definition two_column_table : DataFrame :=
  {| nrows := 5;
     columns := [ map Some [1; 2; 3; 100; 4]; map Some [10; 20; 30; 40; 50] ] |}.

Definition two_column_table_filtered : DataFrame :=
  {| nrows := 4;
     columns := [ map Some [1; 2; 3; 4]; map Some [10; 20; 30; 50] ] |}.

(** From the specification's words: [m] is the mode of [col] used for the
    fill, that is a value of the column that no value outnumbers, and the
    first, in ascending string order, of the values as frequent as it. *)
Definition first_mode (col : ObjSeries) (m : string) : Prop :=
  In (Some m) col /\
  (forall v, (count (dropna col) v <= count (dropna col) m)%nat) /\
  (forall v, count (dropna col) v = count (dropna col) m -> String.leb m v = true).

Definition column_a_a_b_missing : ObjSeries :=
  [Some "a"; Some "a"; Some "b"; None]%string.

(** Two categorical columns, the second without any value. *)
Definition columns_one_without_value : list ObjSeries :=
  [ [Some "a"; Some "a"]; [None; None] ]%string.

(** From the specification's words: a column without missing value, and a
    column none of whose values lies outside its IQR bounds (threshold
    1.5). *)
Definition no_missing {A} (col : list (option A)) : Prop :=
  Forall (fun x => x <> None) col.
Definition in_bounds (col : Series) : Prop :=
  forall i : nat, ~ out_of_bounds 1.5 col i.

(** A small clean dataset: one numeric column [1, 3], one categorical
    column ["x", "y"]. *)
Definition clean_dataset : Dataset :=
  {| n_rows := 2;
     numeric_features := [ map Some [1; 3] ];
     categorical_features := [ [Some "x"%string; Some "y"%string] ] |}.

(** A dataset without categorical column. *)
Definition numeric_only_dataset : Dataset :=
  {| n_rows := 2; numeric_features := [ map Some [1; 3] ]; categorical_features := [] |}.

(** A dataset without categorical column whose numeric column has no
    value. *)
Definition empty_numeric_column_dataset : Dataset :=
  {| n_rows := 2; numeric_features := [ [None; None] ]; categorical_features := [] |}.

(** Mean, population variance and scale of a list of values, as [mean],
    [variance] and [scale_] compute them once NaN is dropped. *)
Definition mean_of (xs : list R) : R := sum xs / INR (length xs).
Definition var_of (xs : list R) : R :=
  sum (map (fun x => (x - mean_of xs) * (x - mean_of xs)) xs) / INR (length xs).
Definition scale_of (xs : list R) : R :=
  if Req_dec_T (var_of xs) 0 then 1 else sqrt (var_of xs).

(** [Series.std(ddof=0)]. *)
Definition std (s : Series) : cell := option_map sqrt (variance s).

(** What the pipeline returns on [clean_dataset]. *)
Definition clean_dataset_result : Dataset :=
  {| n_rows := 2;
     numeric_features := [ map Some [-1; 1] ];
     categorical_features := [ [Some "x"%string; Some "y"%string] ] |}.


(** A numeric table with a column that has no value at all. *)
Definition frame_with_empty_column : DataFrame :=
  {| nrows := 2; columns := [ map Some [1; 3]; [None; None] ] |}.

(** The number of commas of a string. *)
Fixpoint count_commas (s : string) : nat :=
  match s with
  | EmptyString => 0
  | String c s' => (if (c =? ",")%char then 1 else 0) + count_commas s'
  end.


(** An uploaded table with a numeric column that has a missing cell and a
    text column. *)
Definition uploaded_table : Dash.Table :=
  {| Dash.t_nrows := 3;
     Dash.t_columns :=
       [ ("price", Dash.NumCol [Some 1; None; Some 3]);
         ("city", Dash.ObjCol [Some "x"; Some "y"; Some "x"]) ]%string |}.

(** The number of cells of a column that hold a value, and a column without
    missing cell. *)
Definition present (c : Dash.column) : nat :=
  match c with
  | Dash.NumCol s => length (dropna s)
  | Dash.ObjCol s => length (dropna s)
  end.

Definition complete (c : Dash.column) : Prop :=
  match c with
  | Dash.NumCol s => no_missing s
  | Dash.ObjCol s => no_missing s
  end.

(** The rows of the table inside the component that [generate_html_table]
    returns, each as the list of its cells. *)
Definition table_rows (c : Dash.component) : list (list Dash.component) :=
  match c with
  | Dash.Div [_; Dash.HtmlTable rows _ _] _ =>
      map (fun r => match r with Dash.Tr cells => cells | _ => [] end) rows
  | _ => []
  end.

(** What a table cell shows for a float. *)
Definition show_cell (c : cell) : Dash.value :=
  match c with
  | Some x => Dash.Number x
  | None => Dash.NaN
  end.

(** ** Binary64: the bounds as the code computes them, and example data *)

Module F64V.

Import PrimFloat F64.
Open Scope float_scope.
#[local] Set Warnings "-inexact-float".

Section Bounds.

Variable quantile : float -> Series -> float.

(** The bounds that the code computes for one column. *)
Definition lower_bound_of (threshold : float) (col : Series) : float :=
  quantile 0.25 col - threshold * (quantile 0.75 col - quantile 0.25 col).
Definition upper_bound_of (threshold : float) (col : Series) : float :=
  quantile 0.75 col + threshold * (quantile 0.75 col - quantile 0.25 col).

(** The test of the code on a value [x] of [col]: [x < lower_bound] or
    [x > upper_bound], both comparisons being false on NaN. *)
Definition flagged (threshold : float) (col : Series) (x : float) : bool :=
  (x <? lower_bound_of threshold col) || (upper_bound_of threshold col <? x).

(** From the specification's words, read on the bounds the code computes:
    a column none of whose values lies outside its bounds (threshold
    1.5). *)
Definition in_bounds (col : Series) : Prop :=
  forall x : float, In x col -> flagged 1.5 col x = false.

(** The rows that [handle_outliers_iqr] keeps, as positions. *)
Definition kept_rows (data : DataFrame) (threshold : float) : list nat :=
  positions 0
    (map (fun i =>
            negb (existsb (fun col => nth i (map (flagged threshold col) col) false)
                    (columns data)))
         (seq 0 (nrows data))).

End Bounds.

(** The frame made of the rows of [data] at the positions [kept]. *)
Definition take_rows (kept : list nat) (data : DataFrame) : DataFrame :=
  {| nrows := length kept;
     columns := map (fun col => map (fun i => nth i col nan) kept) (columns data) |}.

(** A cell that holds a number: neither NaN nor an infinity. *)
Definition finite (x : float) : Prop := isnan x = false /\ isinf x = false.

(** The column [1, 2, 3, 4, 100] of the specification. *)
Definition column_with_outlier : Series := [1; 2; 3; 4; 100].

(** A column whose extreme values are, in exact arithmetic, equal to the
    bounds [Q1 - 1.5*IQR = -1.7] and [Q3 + 1.5*IQR = 3.1]. *)
Definition fence_column : Series := [-1.7; 0.1; 0.7; 1.3; 3.1].

(** A table of two numeric columns whose row 3 (counting from 0) holds 100
    in the first column. *)
Definition two_column_table : Table :=
  {| t_nrows := 5;
     t_columns := [ NumCol [1; 2; 3; 100; 4]; NumCol [10; 20; 30; 40; 50] ] |}.

Definition two_column_table_filtered : DataFrame :=
  {| nrows := 4; columns := [ [1; 2; 3; 4]; [10; 20; 30; 50] ] |}.


(** A clean dataset: the numeric column [0, 3, 3, 5, 8] has no missing
    value and, its bounds being 0 and 8, no value outside them. *)
Definition clean_dataset : Dataset :=
  {| n_rows := 5;
     numeric_features := [ [0; 3; 3; 5; 8] ];
     categorical_features :=
       [ [Some "x"; Some "y"; Some "x"; Some "y"; Some "x"]%string ] |}.

(** A dataset of text only. *)
Definition text_only_dataset : Dataset :=
  {| n_rows := 2;
     numeric_features := [];
     categorical_features := [ [Some "x"; Some "y"]%string ] |}.

(** A dataset that holds an infinity: no cell is missing and the code's
    test puts none outside the bounds, which are NaN. *)
Definition infinite_value_dataset : Dataset :=
  {| n_rows := 2;
     numeric_features := [ [1; infinity] ];
     categorical_features := [ [Some "x"; Some "y"]%string ] |}.

(** The pipeline with the library routines written out. *)
Definition pipeline (data : Dataset) : result pyexc Dataset :=
  data_preprocessing_pipeline linear_quantile nanmean knn_unused standard_scaler data.

End F64V.

(** * Properties *)

(** ** Comparisons and sorting *)

Lemma Rleb_true (x y : R) : Rleb x y = true <-> x <= y.
Proof. unfold Rleb; destruct (Rle_dec x y); split; intros; try easy. Qed.

Lemma Rltb_true (x y : R) : Rltb x y = true <-> x < y.
Proof. unfold Rltb; destruct (Rlt_dec x y); split; intros; try easy. Qed.




Lemma insert_sorted_le_head (x y : R) (l : list R) :
  x <= y -> insert_sorted x (y :: l) = x :: y :: l.
Proof. intros H; simpl. apply Rleb_true in H. now rewrite H. Qed.

(** A list that is already ascending is left as it is. *)
Lemma sort_ascending (l : list R) : Sorted Rle l -> sort l = l.
Proof.
  induction 1 as [|x l Hs IH Hhd]; simpl; [reflexivity|].
  rewrite IH. destruct Hhd as [|y l Hxy]; [reflexivity|].
  now apply insert_sorted_le_head.
Qed.



(** ** Series *)

Lemma dropna_map_Some {A} (xs : list A) : dropna (map Some xs) = xs.
Proof. induction xs as [|x xs IH]; simpl; [reflexivity | now rewrite IH]. Qed.

Lemma dropna_In {A} (s : list (option A)) (x : A) :
  In x (dropna s) <-> In (Some x) s.
Proof.
  induction s as [|[y|] s IH]; simpl; [tauto| |].
  - rewrite IH. split; intros [H|H]; auto; left; congruence.
  - rewrite IH. split; [auto|]. intros [H|H]; [discriminate | assumption].
Qed.


Lemma mean_Some (s : Series) :
  dropna s <> [] ->
  mean s = Some (sum (dropna s) / INR (length (dropna s))).
Proof. unfold mean. destruct (dropna s); [contradiction | reflexivity]. Qed.

Lemma np_where_length (f : cell -> bool) (v : cell) (s : Series) :
  length (np_where (map f s) v s) = length s.
Proof.
  unfold np_where. rewrite length_map, length_combine, length_map.
  apply Nat.min_id.
Qed.


(** Evaluation of [quantile] on values given in ascending order: [i] is the
    floor of the virtual index and [g] its fractional part. *)
Lemma quantile_ascending (q : Q) (xs : list R) (x0 : R) (i : nat) (g : Q) :
  Sorted Rle xs ->
  nth_error xs 0 = Some x0 ->
  Z.to_nat (Qfloor (inject_Z (Z.of_nat (length xs - 1)) * q)) = i ->
  Qred (inject_Z (Z.of_nat (length xs - 1)) * q
        - inject_Z (Qfloor (inject_Z (Z.of_nat (length xs - 1)) * q))) = g ->
  quantile q (map Some xs) =
    Some (lerp (nth i xs x0) (nth (Nat.min (S i) (length xs - 1)) xs x0) (Q2R g)).
Proof.
  intros Hs H0 Hi Hg. unfold quantile.
  rewrite dropna_map_Some, (sort_ascending xs Hs).
  destruct xs as [|x xs]; [discriminate|]. injection H0 as ->. subst i g.
  cbv zeta. do 2 f_equal. apply Qeq_eqR. symmetry. apply Qred_correct.
Qed.

Ltac ascending := repeat (constructor; try lra).

Ltac eval_quantile q xs x0 i g :=
  rewrite (quantile_ascending q xs x0 i g); [ | ascending | reflexivity..];
  cbn [nth Nat.min length Nat.sub]; unfold lerp, Q2R; simpl.

(** ** Outlier replacement *)

Lemma set_column_middle {A} (done rest : list A) (c c' : A) :
  set_column (length done) c' (done ++ c :: rest) = done ++ c' :: rest.
Proof. induction done as [|d done IH]; simpl; [reflexivity | now rewrite IH]. Qed.

Lemma nth_error_middle {A} (done rest : list A) (c : A) :
  nth_error (done ++ c :: rest) (length done) = Some c.
Proof. induction done as [|d done IH]; simpl; [reflexivity | exact IH]. Qed.

(** The loop rewrites every column, each from its own values. *)
Lemma replace_outliers_loop_map (cols : list Series) :
  replace_outliers_loop cols = map replace_outliers cols.
Proof.
  unfold replace_outliers_loop.
  enough (H : forall rest done : list Series,
             fold_left
               (fun data feature =>
                  match nth_error data feature with
                  | Some col => set_column feature (replace_outliers col) data
                  | None => data
                  end)
               (seq (length done) (length rest)) (done ++ rest)
             = done ++ map replace_outliers rest)
    by apply (H cols []).
  induction rest as [|c rest IH]; intros done; simpl.
  - reflexivity.
  - rewrite nth_error_middle, set_column_middle.
    replace (done ++ replace_outliers c :: rest)
      with ((done ++ [replace_outliers c]) ++ rest)
      by (rewrite <- app_assoc; reflexivity).
    replace (S (length done)) with (length (done ++ [replace_outliers c]))
      by (rewrite length_app; simpl; lia).
    rewrite IH, <- app_assoc. reflexivity.
Qed.




(** ** The row filter *)

Lemma positions_bounds (keep : list bool) (k i : nat) :
  In i (positions k keep) <->
  (k <= i < k + length keep)%nat /\ nth (i - k) keep false = true.
Proof.
  revert k. induction keep as [|b keep IH]; intros k; simpl.
  - split; [tauto | lia].
  - assert (Htl : In i (positions (S k) keep) <->
                  (k < i < k + S (length keep))%nat /\
                  nth (i - k) (b :: keep) false = true).
    { rewrite IH. split; intros [Hr Hn]; (split; [lia|]).
      - replace (i - k)%nat with (S (i - S k)) by lia. exact Hn.
      - replace (i - k)%nat with (S (i - S k)) in Hn by lia. exact Hn. }
    destruct b; simpl In; rewrite ?Htl.
    + split.
      * intros [<- | [Hr Hn]]; [| split; [lia | exact Hn]].
        split; [lia|]. now rewrite Nat.sub_diag.
      * intros [Hr Hn]. destruct (Nat.eq_dec k i); [now left | right].
        split; [lia | exact Hn].
    + split.
      * intros [Hr Hn]. split; [lia | exact Hn].
      * intros [Hr Hn]. split; [| exact Hn].
        destruct (Nat.eq_dec k i) as [<- |]; [| lia].
        rewrite Nat.sub_diag in Hn. discriminate.
Qed.

Lemma positions_increasing (keep : list bool) (k : nat) :
  StronglySorted lt (positions k keep).
Proof.
  revert k. induction keep as [|b keep IH]; intros k; simpl; [constructor|].
  destruct b; [| apply IH].
  constructor; [apply IH|].
  apply Forall_forall. intros i Hi. apply positions_bounds in Hi. lia.
Qed.

Lemma positions_length (keep : list bool) (k : nat) :
  length (positions k keep) = length (filter (fun b => b) keep).
Proof.
  revert k. induction keep as [|[|] keep IH]; intros k; simpl; auto.
Qed.

(** Boolean indexing picks the entries at the true positions. *)
Lemma select_positions {A} (d : A) (keep : list bool) (l : list A) (k : nat) :
  length l = length keep ->
  select keep l = map (fun i => nth (i - k) l d) (positions k keep).
Proof.
  revert l k. induction keep as [|b keep IH]; intros [|x l] k Hlen;
    try discriminate; [reflexivity|].
  injection Hlen as Hlen.
  assert (Htl : select keep l =
                map (fun i => nth (i - k) (x :: l) d) (positions (S k) keep)).
  { rewrite (IH l (S k) Hlen). apply map_ext_in. intros i Hi.
    apply positions_bounds in Hi.
    replace (i - k)%nat with (S (i - S k)) by lia. reflexivity. }
  destruct b; simpl; rewrite Htl; [| reflexivity].
  now rewrite Nat.sub_diag.
Qed.

Lemma boolean_index_take_rows {A} (data : Frame A) (keep : list bool) :
  wf_frame data ->
  length keep = nrows data ->
  boolean_index data keep = take_rows (positions 0 keep) data.
Proof.
  intros Hwf Hlen. unfold boolean_index, take_rows.
  rewrite positions_length. f_equal.
  apply map_ext_in. intros col Hcol.
  rewrite (select_positions None keep col 0).
  - apply map_ext. intros i. now rewrite Nat.sub_0_r.
  - unfold wf_frame in Hwf. rewrite Forall_forall in Hwf.
    rewrite (Hwf col Hcol). now symmetry.
Qed.

Lemma combine_map_same {A B C} (f : A -> B) (g : A -> C) (l : list A) :
  combine (map f l) (map g l) = map (fun x => (f x, g x)) l.
Proof. induction l as [|x l IH]; simpl; [reflexivity | now rewrite IH]. Qed.

Lemma combine_map_r {A B} (g : A -> B) (l : list A) :
  combine l (map g l) = map (fun x => (x, g x)) l.
Proof. induction l as [|x l IH]; simpl; [reflexivity | now rewrite IH]. Qed.

Lemma series_zip_map {A} (f : cell -> cell -> cell) (g h : A -> cell) (l : list A) :
  series_zip f (map g l) (map h l) = map (fun x => f (g x) (h x)) l.
Proof. unfold series_zip. now rewrite combine_map_same, map_map. Qed.

Lemma existsb_map_ext {A B} (f : A -> B) (p : B -> bool) (q : A -> bool)
    (l : list A) :
  (forall x, p (f x) = q x) -> existsb p (map f l) = existsb q l.
Proof.
  intros H. induction l as [|x l IH]; simpl; [reflexivity | now rewrite H, IH].
Qed.

Lemma handle_outliers_iqr_unfold (data : DataFrame) (threshold : R) :
  handle_outliers_iqr data threshold =
  boolean_index data
    (map (fun i =>
            negb (existsb (fun col => nth i (map (flagged threshold col) col) false)
                    (columns data)))
         (seq 0 (nrows data))).
Proof.
  unfold handle_outliers_iqr, df_quantile, scalar_mul, df_compare, df_or, any_axis1.
  f_equal. rewrite map_map. apply map_ext. intros i. f_equal.
  rewrite !series_zip_map, map_map, !series_zip_map.
  rewrite !combine_map_r, !map_map, combine_map_same, map_map.
  apply existsb_map_ext. intros col. f_equal.
  rewrite combine_map_same, map_map. reflexivity.
Qed.

Lemma flagged_true (threshold : R) (col : Series) (x : cell) :
  flagged threshold col x = true <->
  exists v q1 q3 : R,
    x = Some v /\ quantile 0.25 col = Some q1 /\ quantile 0.75 col = Some q3 /\
    (v < q1 - threshold * (q3 - q1) \/ q3 + threshold * (q3 - q1) < v).
Proof.
  unfold flagged, lower_bound_of, upper_bound_of, cell_gt.
  destruct x as [v|], (quantile 0.25 col) as [q1|], (quantile 0.75 col) as [q3|];
    simpl; try (split; [discriminate | intros (? & ? & ? & ? & ? & ? & ?); discriminate]).
  rewrite orb_true_iff, !Rltb_true. split.
  - intros H. now exists v, q1, q3.
  - intros (v' & q1' & q3' & [= <-] & [= <-] & [= <-] & H). exact H.
Qed.

Lemma nth_map_flag {A} (g : A -> bool) (l : list A) (i : nat) :
  nth i (map g l) false = true <-> exists x, nth_error l i = Some x /\ g x = true.
Proof.
  revert i. induction l as [|y l IH]; intros [|i]; simpl.
  - split; [discriminate | intros (? & ? & _); discriminate].
  - split; [discriminate | intros (? & ? & _); discriminate].
  - split; [intros H; now exists y | intros (x & [= <-] & H); exact H].
  - apply IH.
Qed.

Lemma flag_out_of_bounds (threshold : R) (col : Series) (i : nat) :
  nth i (map (flagged threshold col) col) false = true <->
  out_of_bounds threshold col i.
Proof.
  rewrite nth_map_flag. unfold out_of_bounds. split.
  - intros (x & Hx & Hf). apply flagged_true in Hf.
    destruct Hf as (v & q1 & q3 & -> & H1 & H3 & H). now exists v, q1, q3.
  - intros (v & q1 & q3 & Hx & H1 & H3 & H). exists (Some v). split; [exact Hx|].
    apply flagged_true. now exists v, q1, q3.
Qed.

Lemma handle_outliers_iqr_kept (data : DataFrame) (threshold : R) :
  wf_frame data ->
  handle_outliers_iqr data threshold = take_rows (kept_rows data threshold) data.
Proof.
  intros Hwf. rewrite handle_outliers_iqr_unfold.
  apply boolean_index_take_rows; [exact Hwf|].
  now rewrite length_map, length_seq.
Qed.

Lemma kept_rows_spec (data : DataFrame) (threshold : R) (i : nat) :
  In i (kept_rows data threshold) <->
  (i < nrows data)%nat /\
  forall col, In col (columns data) -> ~ out_of_bounds threshold col i.
Proof.
  unfold kept_rows.
  set (F := fun i : nat =>
              negb (existsb
                      (fun col => nth i (map (flagged threshold col) col) false)
                      (columns data))).
  rewrite positions_bounds, length_map, length_seq, Nat.sub_0_r.
  assert (Hnth : (i < nrows data)%nat ->
                 nth i (map F (seq 0 (nrows data))) false = F i).
  { intros Hi.
    rewrite (nth_indep _ false (F 0%nat)) by (rewrite length_map, length_seq; lia).
    rewrite map_nth, seq_nth by lia. reflexivity. }
  split.
  - intros [Hr Hn]. split; [lia|].
    rewrite Hnth in Hn by lia. unfold F in Hn. apply negb_true_iff in Hn.
    intros col Hcol Hout. apply flag_out_of_bounds in Hout.
    assert (Hex : existsb
                    (fun col => nth i (map (flagged threshold col) col) false)
                    (columns data) = true)
      by (apply existsb_exists; now exists col).
    rewrite Hex in Hn. discriminate.
  - intros [Hr Hall]. split; [lia|].
    rewrite Hnth by lia. unfold F. apply negb_true_iff.
    match goal with |- ?e = false => destruct e eqn:E; [| reflexivity] end.
    apply existsb_exists in E. destruct E as (col & Hcol & Hflag).
    apply flag_out_of_bounds in Hflag. now destruct (Hall col Hcol).
Qed.


Lemma two_column_table_wf : wf_frame two_column_table.
Proof. repeat constructor. Qed.

(** C10.  [handle_outliers_iqr] only removes rows: its result is the input
    restricted to some rows, taken at increasing positions of the input
    (so in their original order), each with the cells it had in every
    column. *)
Theorem handle_outliers_iqr_only_removes_rows :
  forall (data : DataFrame) (threshold : R),
    wf_frame data ->
    exists kept : list nat,
      StronglySorted lt kept /\
      Forall (fun i => (i < nrows data)%nat) kept /\
      nrows (handle_outliers_iqr data threshold) = length kept /\
      columns (handle_outliers_iqr data threshold) =
        map (fun col => map (fun i => nth i col None) kept) (columns data).
Proof.
  intros data threshold Hwf. exists (kept_rows data threshold).
  split; [apply positions_increasing|].
  split.
  - apply Forall_forall. intros i Hi. now apply kept_rows_spec in Hi.
  - now rewrite (handle_outliers_iqr_kept data threshold Hwf).
Qed.

Lemma handle_outliers_iqr_only_removes_rows_witness :
  exists kept : list nat,
    StronglySorted lt kept /\
    Forall (fun i => (i < nrows two_column_table)%nat) kept /\
    nrows (handle_outliers_iqr two_column_table 1.5) = length kept /\
    columns (handle_outliers_iqr two_column_table 1.5) =
      map (fun col => map (fun i => nth i col None) kept) (columns two_column_table).
Proof.
  apply (handle_outliers_iqr_only_removes_rows two_column_table 1.5).
  apply two_column_table_wf.
Defined.

(** ** Categorical columns *)

Lemma ascii_compare_N (a b : ascii) :
  Ascii.compare a b = N.compare (N_of_ascii a) (N_of_ascii b).
Proof. reflexivity. Qed.

Lemma string_leb_trans (a b c : string) :
  String.leb a b = true -> String.leb b c = true -> String.leb a c = true.
Proof.
  unfold String.leb. revert b c.
  induction a as [|x a IH]; intros [|y b] [|z c]; simpl; try easy.
  rewrite !ascii_compare_N.
  destruct (N.compare_spec (N_of_ascii x) (N_of_ascii y)) as [Hxy|Hxy|Hxy];
    destruct (N.compare_spec (N_of_ascii y) (N_of_ascii z)) as [Hyz|Hyz|Hyz];
    destruct (N.compare_spec (N_of_ascii x) (N_of_ascii z)) as [Hxz|Hxz|Hxz];
    try easy; try lia.
  apply IH.
Qed.

Lemma insert_str_In (x y : string) (l : list string) :
  In y (insert_str x l) <-> y = x \/ In y l.
Proof.
  induction l as [|z l IH]; simpl; [intuition|].
  destruct (String.leb x z); simpl; rewrite ?IH; intuition.
Qed.

Lemma sort_str_In (y : string) (l : list string) :
  In y (sort_str l) <-> In y l.
Proof.
  induction l as [|x l IH]; simpl; [tauto|].
  rewrite insert_str_In, IH. intuition.
Qed.

(** The head of an inserted list is below the new element and the old
    head. *)
Lemma insert_str_head (x : string) (l : list string) :
  Forall (fun z => String.leb (hd x l) z = true) l ->
  Forall (fun z => String.leb (hd x (insert_str x l)) z = true) (insert_str x l).
Proof.
  destruct l as [|y l]; simpl; intros H.
  - constructor; [| constructor]. destruct (String.leb_total x x); assumption.
  - destruct (String.leb x y) eqn:E; simpl.
    + constructor; [destruct (String.leb_total x x); assumption|].
      apply Forall_forall. intros z Hz. rewrite Forall_forall in H.
      apply string_leb_trans with y; [exact E | now apply H].
    + assert (Hyx : String.leb y x = true)
        by (destruct (String.leb_total x y); congruence).
      inversion H as [|? ? Hyy Htl]; subst.
      constructor; [exact Hyy|].
      apply Forall_forall. intros z Hz. apply insert_str_In in Hz.
      destruct Hz as [-> | Hz]; [exact Hyx|].
      rewrite Forall_forall in Htl. now apply Htl.
Qed.

Lemma sort_str_head (d : string) (l : list string) :
  Forall (fun z => String.leb (hd d (sort_str l)) z = true) (sort_str l).
Proof.
  induction l as [|x l IH]; simpl; [constructor|].
  assert (H := insert_str_head x (sort_str l)).
  destruct (sort_str l) as [|y l'] eqn:E.
  - simpl. constructor; [| constructor].
    destruct (String.leb_total x x); assumption.
  - simpl hd in IH.
    specialize (H IH).
    destruct (insert_str x (y :: l')) as [|h t] eqn:E'; [constructor|].
    exact H.
Qed.

Lemma fold_max_bound {A} (f : A -> nat) (l : list A) (x : A) :
  In x l -> (f x <= fold_right Nat.max 0 (map f l))%nat.
Proof.
  induction l as [|y l IH]; simpl; [tauto|].
  intros [-> | Hx]; [lia | specialize (IH Hx); lia].
Qed.

Lemma fold_max_attained {A} (f : A -> nat) (l : list A) :
  l <> [] -> exists x, In x l /\ f x = fold_right Nat.max 0%nat (map f l).
Proof.
  induction l as [|y l IH]; [contradiction | intros _]. simpl.
  destruct l as [|z l].
  - exists y. simpl. split; [now left | lia].
  - destruct IH as (x & Hx & Hfx); [discriminate|].
    destruct (Nat.max_spec (f y) (fold_right Nat.max 0%nat (map f (z :: l))))
      as [[_ ->] | [_ ->]].
    + exists x. split; [now right | exact Hfx].
    + exists y. split; [now left | reflexivity].
Qed.

Lemma series_mode_In (s : ObjSeries) (v : string) :
  In v (series_mode s) <->
  In (Some v) s /\
  count (dropna s) v =
    fold_right Nat.max 0%nat (map (count (dropna s)) (dropna s)).
Proof.
  unfold series_mode.
  rewrite sort_str_In, nodup_In, filter_In, Nat.eqb_eq, dropna_In. tauto.
Qed.

Lemma series_mode_head (s : ObjSeries) :
  dropna s <> [] ->
  exists m rest, series_mode s = m :: rest /\ first_mode s m.
Proof.
  intros Hne.
  destruct (fold_max_attained (count (dropna s)) (dropna s) Hne) as (x & Hx & Hcx).
  assert (Hin : In x (series_mode s))
    by (apply series_mode_In; split; [now apply dropna_In | exact Hcx]).
  assert (Hhead := sort_str_head x
            (nodup string_dec
               (filter (fun v => count (dropna s) v =?
                   fold_right Nat.max 0 (map (count (dropna s)) (dropna s)))%nat
                  (dropna s)))).
  fold (series_mode s) in Hhead.
  destruct (series_mode s) as [|m rest] eqn:E; [contradiction|].
  exists m, rest. split; [reflexivity|].
  assert (Hm : In m (series_mode s)) by (rewrite E; now left).
  apply series_mode_In in Hm. destruct Hm as [Hms Hcm].
  simpl hd in Hhead. rewrite Forall_forall in Hhead.
  split; [exact Hms|]. split.
  - intros v. rewrite Hcm.
    destruct (in_dec string_dec v (dropna s)) as [Hv | Hv].
    + now apply fold_max_bound.
    + unfold count. rewrite (proj1 (count_occ_not_In string_dec _ _) Hv). lia.
  - intros v Hcv. apply Hhead.
    assert (Hv : In v (series_mode s)); [| now rewrite E in Hv].
    apply series_mode_In. split; [| congruence].
    apply dropna_In. unfold count in *.
    apply (count_occ_In string_dec). rewrite Hcv.
    apply (count_occ_In string_dec). now apply dropna_In.
Qed.

Lemma series_mode_nil (s : ObjSeries) : dropna s = [] -> series_mode s = [].
Proof. intros H. unfold series_mode. now rewrite H. Qed.

Lemma pad_first {A} (k : nat) (l : list A) :
  nth 0 (pad k (map Some l)) None = hd_error l.
Proof.
  unfold pad. destruct l as [|x l]; simpl; [| reflexivity].
  now destruct k.
Qed.

(** The values that [fill_categorical] fills with, one per column. *)
Lemma fill_categorical_Ok (cols : list ObjSeries) :
  nrows (frame_mode cols) <> 0%nat ->
  fill_categorical cols =
  Ok (map (fun col =>
             map (fun x => match x with
                           | Some _ => x
                           | None => hd_error (series_mode col)
                           end) col) cols).
Proof.
  intros Hk. unfold fill_categorical, iloc0.
  destruct (Nat.eqb_spec (nrows (frame_mode cols)) 0); [contradiction|].
  simpl. f_equal. unfold fillna, frame_mode. cbn [columns].
  rewrite !map_map, combine_map_r, map_map.
  apply map_ext. intros col. apply map_ext. intros x.
  now rewrite pad_first.
Qed.

Lemma fill_categorical_Raise (cols : list ObjSeries) :
  nrows (frame_mode cols) = 0%nat ->
  fill_categorical cols = Raise IndexError.
Proof.
  intros Hk. unfold fill_categorical, iloc0. now rewrite Hk.
Qed.

Lemma frame_mode_rows (cols : list ObjSeries) (col : ObjSeries) :
  In col cols -> (length (series_mode col) <= nrows (frame_mode cols))%nat.
Proof.
  intros H. unfold frame_mode. cbn [nrows].
  rewrite map_map. now apply (fold_max_bound (fun c => length (series_mode c))).
Qed.

Open Scope string_scope.

(** C3, as the code has it.  For every categorical column that holds at
    least one value, the categorical step succeeds and, in that column,
    every missing cell receives the column's mode [m] -- a most frequent
    value, the first in ascending string order among the most frequent
    ones -- while every other cell keeps its value.  For
    ["a", "a", "b", None] the filled value is "a". *)
Theorem fill_categorical_fills_with_first_mode :
  (forall (cols : list ObjSeries) (j : nat) (col : ObjSeries),
      nth_error cols j = Some col ->
      dropna col <> [] ->
      exists (m : string) (filled : list ObjSeries) (out : ObjSeries),
        first_mode col m /\
        fill_categorical cols = Ok filled /\
        nth_error filled j = Some out /\
        length out = length col /\
        forall i : nat,
          (nth_error col i = Some None -> nth_error out i = Some (Some m)) /\
          (forall v, nth_error col i = Some (Some v) ->
                     nth_error out i = Some (Some v)))
  /\ fill_categorical [column_a_a_b_missing]
     = Ok [[Some "a"; Some "a"; Some "b"; Some "a"]].
Proof.
  split; [| reflexivity].
  intros cols j col Hcol Hne.
  destruct (series_mode_head col Hne) as (m & rest & Hm & Hfirst).
  assert (Hin : In col cols) by (eapply nth_error_In; eassumption).
  assert (Hk : nrows (frame_mode cols) <> 0%nat).
  { pose proof (frame_mode_rows cols col Hin) as Hle.
    rewrite Hm in Hle. cbn [length] in Hle. lia. }
  exists m. eexists. eexists.
  split; [exact Hfirst|].
  split; [apply (fill_categorical_Ok cols Hk)|].
  split; [rewrite nth_error_map, Hcol; reflexivity|].
  split; [apply length_map|].
  intros i. rewrite nth_error_map, Hm. simpl hd_error.
  split; [intros -> | intros v ->]; reflexivity.
Qed.

Lemma fill_categorical_fills_with_first_mode_witness :
  exists (m : string) (filled : list ObjSeries) (out : ObjSeries),
    first_mode column_a_a_b_missing m /\
    fill_categorical [column_a_a_b_missing] = Ok filled /\
    nth_error filled 0 = Some out /\
    length out = length column_a_a_b_missing /\
    forall i : nat,
      (nth_error column_a_a_b_missing i = Some None ->
       nth_error out i = Some (Some m)) /\
      (forall v, nth_error column_a_a_b_missing i = Some (Some v) ->
                 nth_error out i = Some (Some v)).
Proof.
  apply (proj1 fill_categorical_fills_with_first_mode
           [column_a_a_b_missing] 0%nat column_a_a_b_missing).
  - reflexivity.
  - discriminate.
Defined.

(** Counterexample to C3 as stated: next to a column that has a mode, a
    column without any value keeps its missing cells, and the step
    succeeds. *)
Lemma fill_categorical_leaves_empty_column_missing :
  exists (filled : list ObjSeries) (out : ObjSeries),
    fill_categorical columns_one_without_value = Ok filled /\
    nth_error columns_one_without_value 1 = Some [None; None] /\
    nth_error filled 1 = Some out /\
    nth_error out 0 = Some None.
Proof.
  exists columns_one_without_value, [None; None]. repeat split.
Qed.

Close Scope string_scope.

(** ** The pipeline on clean numeric columns *)

Lemma no_missing_isnan {A} (col : list (option A)) :
  no_missing col -> existsb isnan col = false.
Proof.
  induction 1 as [|x col Hx _ IH]; simpl; [reflexivity|].
  destruct x; [exact IH | contradiction].
Qed.

Lemma no_missing_not_all_nan {A} (col : list (option A)) :
  no_missing col -> col <> [] -> forallb isnan col = false.
Proof.
  intros H Hne. destruct H as [|x col Hx _]; [contradiction|].
  destruct x; [reflexivity | contradiction].
Qed.


Lemma filter_all {A} (p : A -> bool) (l : list A) :
  Forall (fun x => p x = true) l -> filter p l = l.
Proof.
  induction 1 as [|x l Hx _ IH]; simpl; [reflexivity|]. now rewrite Hx, IH.
Qed.

Lemma existsb_none {A} (p : A -> bool) (l : list A) :
  Forall (fun x => p x = false) l -> existsb p l = false.
Proof.
  induction 1 as [|x l Hx _ IH]; simpl; [reflexivity|]. now rewrite Hx, IH.
Qed.

Lemma replace_outliers_flagged (col : Series) :
  replace_outliers col = np_where (map (flagged 1.5 col) col) (mean col) col.
Proof. reflexivity. Qed.

Lemma np_where_false (f : cell -> bool) (v : cell) (s : Series) :
  Forall (fun x => f x = false) s -> np_where (map f s) v s = s.
Proof.
  unfold np_where.
  induction 1 as [|x s Hx _ IH]; simpl; [reflexivity|]. now rewrite Hx, IH.
Qed.

Lemma replace_outliers_in_bounds (col : Series) :
  in_bounds col -> replace_outliers col = col.
Proof.
  intros Hin. rewrite replace_outliers_flagged. apply np_where_false.
  apply Forall_forall. intros x Hx.
  destruct (flagged 1.5 col x) eqn:E; [| reflexivity].
  apply In_nth_error in Hx. destruct Hx as [i Hi].
  destruct (Hin i). apply flag_out_of_bounds, nth_map_flag. now exists x.
Qed.

Lemma map_id_on {A} (f : A -> A) (l : list A) :
  Forall (fun x => f x = x) l -> map f l = l.
Proof.
  induction 1 as [|x l Hx _ IH]; simpl; [reflexivity|]. now rewrite Hx, IH.
Qed.

Section CleanPipeline.

Variable knn_impute : list Series -> list (list R).

(** A frame with a row and a column passes the estimators' validation. *)
Lemma check_array_Ok (n : nat) (cols : list Series) :
  n <> 0%nat -> cols <> [] ->
  check_array {| nrows := n; columns := cols |} = Ok tt.
Proof.
  intros Hn Hc. unfold check_array. cbn [nrows columns].
  destruct (Nat.eqb_spec n 0); [contradiction|].
  destruct cols; [contradiction | reflexivity].
Qed.

Lemma handle_missing_values_no_missing (n : nat) (cols : list Series) :
  n <> 0%nat -> cols <> [] ->
  Forall (fun c => length c = n) cols ->
  Forall no_missing cols ->
  handle_missing_values knn_impute {| nrows := n; columns := cols |}
  = Ok {| nrows := n; columns := cols |}.
Proof.
  intros Hn Hc Hlen Hnm. unfold handle_missing_values, knn_fit_transform.
  rewrite (check_array_Ok n cols Hn Hc). cbn [bind columns nrows].
  rewrite filter_all.
  - rewrite existsb_none.
    + cbn [negb bind]. now rewrite Nat.eqb_refl.
    + revert Hnm. apply Forall_impl. intros c. apply no_missing_isnan.
  - rewrite Forall_forall in *. intros c Hin.
    rewrite no_missing_not_all_nan; [reflexivity | now apply Hnm |].
    intros ->. specialize (Hlen [] Hin). simpl in Hlen. congruence.
Qed.

(** On clean numeric columns the pipeline is the categorical step
    followed by the standardisation of the values it received. *)
Lemma pipeline_clean_numeric (data : Dataset) :
  n_rows data <> 0%nat -> numeric_features data <> [] ->
  Forall (fun c => length c = n_rows data) (numeric_features data) ->
  Forall no_missing (numeric_features data) ->
  Forall in_bounds (numeric_features data) ->
  data_preprocessing_pipeline knn_impute data =
  bind (fill_categorical (categorical_features data)) (fun categorical =>
    Ok {| n_rows := n_rows data;
          numeric_features := map standardize (numeric_features data);
          categorical_features := categorical |}).
Proof.
  intros Hn Hc Hlen Hnm Hin. unfold data_preprocessing_pipeline.
  rewrite (handle_missing_values_no_missing _ _ Hn Hc Hlen Hnm).
  cbn [bind columns].
  destruct (fill_categorical (categorical_features data)); [| reflexivity].
  cbn [bind]. rewrite replace_outliers_loop_map.
  rewrite (map_id_on replace_outliers)
    by (revert Hin; apply Forall_impl; apply replace_outliers_in_bounds).
  unfold scaler_fit_transform. now rewrite (check_array_Ok _ _ Hn Hc).
Qed.

End CleanPipeline.

Lemma in_bounds_intro (col : Series) (q1 q3 : R) :
  quantile 0.25 col = Some q1 ->
  quantile 0.75 col = Some q3 ->
  Forall (fun x => match x with
                   | Some v => q1 - 1.5 * (q3 - q1) <= v <= q3 + 1.5 * (q3 - q1)
                   | None => True
                   end) col ->
  in_bounds col.
Proof.
  intros H1 H3 Hall i (v & q1' & q3' & Hv & H1' & H3' & Hout).
  rewrite H1 in H1'. rewrite H3 in H3'.
  injection H1' as <-. injection H3' as <-.
  apply nth_error_In in Hv. rewrite Forall_forall in Hall.
  specialize (Hall _ Hv). simpl in Hall. lra.
Qed.

Lemma column_1_3_quartiles :
  quantile 0.25 (map Some [1; 3]) = Some 1.5 /\
  quantile 0.75 (map Some [1; 3]) = Some 2.5.
Proof.
  split.
  - eval_quantile 0.25%Q [1; 3] 1 0%nat (1 # 4)%Q. f_equal; lra.
  - eval_quantile 0.75%Q [1; 3] 1 0%nat (3 # 4)%Q. f_equal; lra.
Qed.

Lemma clean_dataset_in_bounds : Forall in_bounds (numeric_features clean_dataset).
Proof.
  destruct column_1_3_quartiles as [H1 H3].
  constructor; [| constructor].
  apply (in_bounds_intro _ 1.5 2.5 H1 H3).
  repeat constructor; lra.
Qed.

Lemma clean_dataset_no_missing : Forall no_missing (numeric_features clean_dataset).
Proof. repeat constructor; discriminate. Qed.

Lemma clean_dataset_wf : wf_dataset clean_dataset.
Proof. split; repeat constructor. Qed.

(** ** The empty mode table *)

Lemma fold_max_zero {A} (f : A -> nat) (l : list A) :
  Forall (fun x => f x = 0%nat) l -> fold_right Nat.max 0%nat (map f l) = 0%nat.
Proof.
  induction 1 as [|x l Hx _ IH]; simpl; [reflexivity|]. now rewrite Hx, IH.
Qed.

Lemma dropna_all_missing {A} (col : list (option A)) :
  Forall (fun x => x = None) col -> dropna col = [].
Proof. induction 1 as [|x col -> _ IH]; simpl; [reflexivity | exact IH]. Qed.

Lemma frame_mode_all_missing (cols : list ObjSeries) :
  Forall (Forall (fun x => x = None)) cols -> nrows (frame_mode cols) = 0%nat.
Proof.
  intros H. unfold frame_mode. cbn [nrows]. rewrite map_map.
  apply (fold_max_zero (fun c => length (series_mode c))).
  revert H. apply Forall_impl. intros col Hcol.
  now rewrite series_mode_nil by now apply dropna_all_missing.
Qed.

(** C9, as the code has it.  When the mode table of the categorical
    columns has no row, the categorical step raises [IndexError] and the
    pipeline raises instead of returning a dataset.  The numeric
    imputation runs before the categorical step: when it raises, the
    pipeline raises its exception; when it returns, the pipeline raises
    the [IndexError] of the categorical step.  The mode table has no row
    in particular when there is no categorical column and when every
    categorical column is entirely missing.  A dataset with one numeric
    column [1, 3] and no categorical column ends in [IndexError]. *)
Theorem pipeline_raises_on_empty_mode_table :
  (forall (knn_impute : list Series -> list (list R)) (data : Dataset),
      nrows (frame_mode (categorical_features data)) = 0%nat ->
      fill_categorical (categorical_features data) = Raise IndexError /\
      (exists e, data_preprocessing_pipeline knn_impute data = Raise e) /\
      (forall imputed,
          handle_missing_values knn_impute
            {| nrows := n_rows data; columns := numeric_features data |}
          = Ok imputed ->
          data_preprocessing_pipeline knn_impute data = Raise IndexError) /\
      (forall e,
          handle_missing_values knn_impute
            {| nrows := n_rows data; columns := numeric_features data |}
          = Raise e ->
          data_preprocessing_pipeline knn_impute data = Raise e))
  /\ (forall data : Dataset,
         categorical_features data = [] ->
         nrows (frame_mode (categorical_features data)) = 0%nat)
  /\ (forall data : Dataset,
         Forall (Forall (fun x => x = None)) (categorical_features data) ->
         nrows (frame_mode (categorical_features data)) = 0%nat)
  /\ (forall knn_impute : list Series -> list (list R),
         data_preprocessing_pipeline knn_impute numeric_only_dataset
         = Raise IndexError).
Proof.
  split; [| split; [| split]].
  - intros knn data Hk.
    pose proof (fill_categorical_Raise _ Hk) as Hfill.
    split; [exact Hfill|].
    unfold data_preprocessing_pipeline. rewrite Hfill.
    split; [| split].
    + destruct (handle_missing_values knn _) as [imputed | e];
        [exists IndexError | exists e]; reflexivity.
    + intros imputed ->. reflexivity.
    + intros e ->. reflexivity.
  - intros data ->. reflexivity.
  - intros data. apply frame_mode_all_missing.
  - intros knn. unfold data_preprocessing_pipeline.
    rewrite handle_missing_values_no_missing;
      [reflexivity | discriminate | discriminate | repeat constructor
      | repeat constructor; discriminate].
Qed.

Lemma pipeline_raises_on_empty_mode_table_witness :
  fill_categorical (categorical_features numeric_only_dataset) = Raise IndexError /\
  (exists e,
      data_preprocessing_pipeline (map (@dropna R)) numeric_only_dataset = Raise e) /\
  (forall imputed,
      handle_missing_values (map (@dropna R))
        {| nrows := n_rows numeric_only_dataset;
           columns := numeric_features numeric_only_dataset |}
      = Ok imputed ->
      data_preprocessing_pipeline (map (@dropna R)) numeric_only_dataset
      = Raise IndexError) /\
  (forall e,
      handle_missing_values (map (@dropna R))
        {| nrows := n_rows numeric_only_dataset;
           columns := numeric_features numeric_only_dataset |}
      = Raise e ->
      data_preprocessing_pipeline (map (@dropna R)) numeric_only_dataset
      = Raise e).
Proof.
  apply (proj1 pipeline_raises_on_empty_mode_table
           (map (@dropna R)) numeric_only_dataset).
  reflexivity.
Defined.

(** C9 as it is stated fails where the numeric imputation raises: the
    dataset [empty_numeric_column_dataset] has no categorical column, so
    its mode table is empty, but its only numeric column has no value,
    and the pipeline raises the [ValueError] of the imputation (line 19)
    before it reaches the categorical step (line 22). *)
Lemma pipeline_raises_before_the_categorical_step :
  categorical_features empty_numeric_column_dataset = [] /\
  nrows (frame_mode (categorical_features empty_numeric_column_dataset)) = 0%nat /\
  handle_missing_values (map (@dropna R))
    {| nrows := n_rows empty_numeric_column_dataset;
       columns := numeric_features empty_numeric_column_dataset |}
  = Raise ValueError /\
  data_preprocessing_pipeline (map (@dropna R)) empty_numeric_column_dataset
  = Raise ValueError /\
  data_preprocessing_pipeline (map (@dropna R)) empty_numeric_column_dataset
  <> Raise IndexError.
Proof. repeat split; discriminate. Qed.

(** ** Standardisation *)

Lemma mean_values (s : Series) :
  dropna s <> [] -> mean s = Some (mean_of (dropna s)).
Proof. apply mean_Some. Qed.

Lemma variance_values (s : Series) :
  dropna s <> [] -> variance s = Some (var_of (dropna s)).
Proof. unfold variance. destruct (dropna s); [contradiction | reflexivity]. Qed.

Lemma scale_values (s : Series) :
  dropna s <> [] -> scale_ s = Some (scale_of (dropna s)).
Proof.
  intros H. unfold scale_, scale_of. rewrite (variance_values s H).
  now destruct (Req_dec_T (var_of (dropna s)) 0).
Qed.






Section Rescale.

(** The map [x |-> (x - m) / s] with [s <> 0]. *)
Variables m s : R.
Hypothesis s_nonzero : s <> 0.

Local Abbreviation g := (fun x : R => (x - m) / s).





End Rescale.

(** The values of a standardised column. *)
Lemma standardize_values (col : Series) :
  dropna col <> [] ->
  standardize col =
  map (option_map (fun x => (x - mean_of (dropna col)) / scale_of (dropna col))) col.
Proof.
  intros H. unfold standardize.
  rewrite (mean_values col H), (scale_values col H).
  apply map_ext. now intros [x|].
Qed.







Section RescaleOrder.

(** With [s > 0] the map [x |-> (x - m) / s] keeps the order, hence
    commutes with sorting, interpolation and quantiles. *)
Variables m s : R.
Hypothesis s_pos : 0 < s.

Local Abbreviation g := (fun x : R => (x - m) / s).






End RescaleOrder.

Lemma column_1_3_standardized :
  standardize (map Some [1; 3]) = map Some [-1; 1].
Proof.
  assert (Hm : mean_of [1; 3] = 2) by (unfold mean_of; simpl; lra).
  assert (Hv : var_of [1; 3] = 1) by (unfold var_of; rewrite Hm; simpl; lra).
  assert (Hs : scale_of [1; 3] = 1).
  { unfold scale_of. rewrite Hv. destruct (Req_dec_T 1 0); [lra | apply sqrt_1]. }
  rewrite standardize_values; rewrite dropna_map_Some; [| discriminate].
  rewrite Hm, Hs. simpl. repeat f_equal; lra.
Qed.

Lemma clean_dataset_pipeline (knn_impute : list Series -> list (list R)) :
  data_preprocessing_pipeline knn_impute clean_dataset = Ok clean_dataset_result.
Proof.
  rewrite pipeline_clean_numeric.
  - unfold clean_dataset_result, clean_dataset.
    cbn [numeric_features categorical_features n_rows].
    change (map standardize [map Some [1; 3]]) with [standardize (map Some [1; 3])].
    rewrite column_1_3_standardized. reflexivity.
  - discriminate.
  - discriminate.
  - apply clean_dataset_wf.
  - apply clean_dataset_no_missing.
  - apply clean_dataset_in_bounds.
Qed.

Section PipelineResult.

Variable knn_impute : list Series -> list (list R).

(** A returned dataset comes from the four stages in order. *)
Lemma pipeline_Ok_inv (data out : Dataset) :
  data_preprocessing_pipeline knn_impute data = Ok out ->
  exists (imputed : DataFrame) (categorical : list ObjSeries),
    handle_missing_values knn_impute
      {| nrows := n_rows data; columns := numeric_features data |} = Ok imputed /\
    fill_categorical (categorical_features data) = Ok categorical /\
    out = {| n_rows := n_rows data;
             numeric_features :=
               map standardize (replace_outliers_loop (columns imputed));
             categorical_features := categorical |}.
Proof.
  unfold data_preprocessing_pipeline, scaler_fit_transform.
  destruct (handle_missing_values knn_impute _) as [imputed|]; [| discriminate].
  destruct (fill_categorical _) as [categorical|]; [| discriminate].
  cbn [bind]. destruct (check_array _); [| discriminate].
  cbn [bind columns]. intros [= <-]. now exists imputed, categorical.
Qed.


End PipelineResult.

(** ** Running the pipeline on its own result *)








(** ** The conversion endpoint *)

Module ApiFacts.

Import Api.
Open Scope string_scope.

Lemma endswith_append (base suffix : string) :
  endswith (base ++ suffix) suffix = true.
Proof.
  induction base as [|c base IH]; cbn [append endswith].
  - destruct suffix; cbn [endswith]; now rewrite String.eqb_refl.
  - rewrite IH. apply orb_true_r.
Qed.

Lemma endswith_split (s suffix : string) :
  endswith s suffix = true -> exists base, s = base ++ suffix.
Proof.
  induction s as [|c s IH]; cbn [endswith].
  - rewrite orb_false_r. intros H. apply String.eqb_eq in H. subst. now exists "".
  - intros H. apply orb_true_iff in H. destruct H as [H | H].
    + apply String.eqb_eq in H. rewrite H. now exists "".
    + destruct (IH H) as [base ->]. now exists (String c base).
Qed.

Lemma before_last_dot_csv (base : string) :
  before_last_dot (base ++ ".csv") = Some base.
Proof.
  induction base as [|c base IH]; [reflexivity|].
  cbn [append before_last_dot]. now rewrite IH.
Qed.

Lemma rsplit_dot_head_csv (base : string) :
  rsplit_dot_head (base ++ ".csv") = base.
Proof. unfold rsplit_dot_head. now rewrite before_last_dot_csv. Qed.

(** *** Header values *)

Lemma unencodable_run_none (pos : nat) (cps : list N) :
  unencodable_run pos cps = None <-> forallb (fun c => (c <? 256)%N) cps = true.
Proof.
  revert pos. induction cps as [|c cps IH]; intros pos; cbn [unencodable_run forallb].
  - tauto.
  - destruct (c <? 256)%N; cbn [andb]; [apply IH|]. split; discriminate.
Qed.

Lemma encode_latin1_Ok (s : string) :
  latin1 s = true -> encode_latin1 s = Ok (code_points s).
Proof.
  unfold latin1, encode_latin1. intros H.
  apply (unencodable_run_none 0) in H. now rewrite H.
Qed.

Lemma encode_latin1_Raise (s : string) :
  latin1 s = false -> exists msg, encode_latin1 s = Raise msg.
Proof.
  unfold latin1, encode_latin1. intros H.
  destruct (unencodable_run 0 (code_points s)) as [[start run]|] eqn:E.
  - now eexists.
  - apply unencodable_run_none in E. congruence.
Qed.

(** Whether the characters fit latin-1 does not depend on which of the two
    ASCII suffixes follows [base], whatever was read before. *)
Lemma latin1_suffix (base : string) (pending : nat) (acc : N) :
  forallb (fun c => (c <? 256)%N) (utf8_decode pending acc (base ++ ".csv")) =
  forallb (fun c => (c <? 256)%N)
    (utf8_decode pending acc
       (base ++ "_with_summary_missing_values_and_outliers.xlsx")).
Proof.
  revert pending acc. induction base as [|c base IH]; intros pending acc.
  - destruct pending; reflexivity.
  - cbn [append utf8_decode].
    destruct (utf8_feed pending acc (N_of_ascii c)) as [out [k a]].
    now rewrite !forallb_app, IH.
Qed.

Lemma latin1_content_disposition (base : string) :
  latin1 (content_disposition (base ++ ".csv")) = latin1 (base ++ ".csv").
Proof.
  unfold content_disposition. rewrite rsplit_dot_head_csv.
  unfold latin1, code_points. symmetry. apply latin1_suffix.
Qed.

(** For a name ending in [.csv], the header value can be encoded exactly
    when the name has only characters of latin-1. *)
Lemma encode_content_disposition (name : string) :
  endswith name ".csv" = true ->
  (latin1 name = true ->
   encode_latin1 (content_disposition name) = Ok (code_points (content_disposition name))) /\
  (latin1 name = false ->
   exists msg, encode_latin1 (content_disposition name) = Raise msg).
Proof.
  intros H. apply endswith_split in H. destruct H as [base ->]. split; intros Hl.
  - apply encode_latin1_Ok. now rewrite latin1_content_disposition.
  - apply encode_latin1_Raise. now rewrite latin1_content_disposition.
Qed.

Section Handler.

Variables Table Workbook : Type.
Variable decode_utf8 : list byte -> result string string.
Variable read_csv : string -> result string Table.
Variable excel_writer : result string Workbook.
Variable create_data_sheet : Table -> Workbook -> result string Workbook.
Variable create_summary_sheet : Table -> Workbook -> result string Workbook.
Variable create_missing_values_graph : Table -> Workbook -> result string Workbook.
Variable create_outlier_graphs : Table -> Workbook -> result string Workbook.
Variable close_writer : Workbook -> result string (list byte).

Local Abbreviation handler :=
  (csv_to_excel_with_description decode_utf8 read_csv excel_writer
     create_data_sheet create_summary_sheet create_missing_values_graph
     create_outlier_graphs close_writer).

Local Abbreviation try_block :=
  (convert decode_utf8 read_csv excel_writer
     create_data_sheet create_summary_sheet create_missing_values_graph
     create_outlier_graphs close_writer).

Local Abbreviation raises :=
  (Api.raises decode_utf8 read_csv excel_writer
     create_data_sheet create_summary_sheet create_missing_values_graph
     create_outlier_graphs close_writer).

Lemma try_block_raises (file : UploadFile) (msg : string) (log : list event) :
  raises file msg -> exists log', try_block file log = (log', Raise msg).
Proof.
  unfold convert, with_excel_writer, bindM, call, ret.
  intros H; destruct H;
    repeat match goal with
           | E : _ = Ok _ |- _ => rewrite E; clear E
           | E : _ = Raise _ |- _ => rewrite E; clear E
           end;
    eexists; reflexivity.
Qed.

Lemma handler_not_csv (file : UploadFile) (log : list event) :
  endswith (filename file) ".csv" = false ->
  handler file log = (log, Ok (HTTPException 400 "Only CSV files are allowed")).
Proof.
  intros H. unfold csv_to_excel_with_description. now rewrite H.
Qed.

Lemma handler_catches (file : UploadFile) (msg : string) (log log' : list event) :
  endswith (filename file) ".csv" = true ->
  try_block file log = (log', Raise msg) ->
  handler file log = (log', Ok (HTTPException 500 ("An error occurred: " ++ msg))).
Proof.
  intros H Hraise. unfold csv_to_excel_with_description.
  rewrite H. cbn [negb]. unfold try_except. now rewrite Hraise.
Qed.

Lemma handler_success (file : UploadFile) (base text : string) (df : Table)
    (w w1 w2 w3 w4 : Workbook) (xlsx : list byte) (log : list event) :
  filename file = base ++ ".csv" ->
  latin1 (filename file) = true ->
  decode_utf8 (content file) = Ok text -> read_csv text = Ok df ->
  excel_writer = Ok w -> create_data_sheet df w = Ok w1 ->
  create_summary_sheet df w1 = Ok w2 ->
  create_missing_values_graph df w2 = Ok w3 ->
  create_outlier_graphs df w3 = Ok w4 ->
  close_writer w4 = Ok xlsx ->
  snd (handler file log) =
  Ok (StreamingResponse xlsx
        "application/vnd.openxmlformats-officedocument.spreadsheetml.sheet"
        [("Content-Disposition",
          "attachment; filename=" ++ base
          ++ "_with_summary_missing_values_and_outliers.xlsx")]).
Proof.
  intros Hname Hlatin Hd Hr Hw H1 H2 H3 H4 Hc.
  unfold csv_to_excel_with_description.
  rewrite Hname, endswith_append. cbn [negb].
  unfold try_except, convert, with_excel_writer, bindM, call, lift, ret.
  rewrite Hd, Hr, Hw, H1, H2, H3, H4, Hc, Hname.
  rewrite encode_latin1_Ok
    by (rewrite latin1_content_disposition, <- Hname; exact Hlatin).
  unfold content_disposition. rewrite rsplit_dot_head_csv.
  reflexivity.
Qed.

End Handler.

(** C7, as the code has it.  An upload whose file name does not end in
    [.csv] is answered with status 400 and the handler performs no
    operation at all (the log of operations is left as it was: the content
    is not even read).  An upload named [base.csv], the name holding only
    characters of latin-1, for which decoding, parsing and every step of
    the report succeed is answered with status 200, the spreadsheet media
    type, the written workbook as body and the header
    [Content-Disposition: attachment; filename=base_with_summary_missing_values_and_outliers.xlsx].
    [report.txt] gets 400, and the name built for [sales.csv] is
    [sales_with_summary_missing_values_and_outliers.xlsx]. *)
Theorem conversion_endpoint_csv_only :
  forall (Table Workbook : Type)
    (decode_utf8 : list byte -> result string string)
    (read_csv : string -> result string Table)
    (excel_writer : result string Workbook)
    (create_data_sheet create_summary_sheet create_missing_values_graph
       create_outlier_graphs : Table -> Workbook -> result string Workbook)
    (close_writer : Workbook -> result string (list byte)),
    let handler :=
      csv_to_excel_with_description decode_utf8 read_csv excel_writer
        create_data_sheet create_summary_sheet create_missing_values_graph
        create_outlier_graphs close_writer in
    (forall (file : UploadFile) (log : list event),
        endswith (filename file) ".csv" = false ->
        exists outcome,
          handler file log = (log, Ok outcome) /\
          status outcome = 400%nat /\
          outcome = HTTPException 400 "Only CSV files are allowed")
    /\
    (forall (file : UploadFile) (base text : string) (df : Table)
            (w w1 w2 w3 w4 : Workbook) (xlsx : list byte),
        filename file = base ++ ".csv" ->
        latin1 (filename file) = true ->
        decode_utf8 (content file) = Ok text ->
        read_csv text = Ok df ->
        excel_writer = Ok w ->
        create_data_sheet df w = Ok w1 ->
        create_summary_sheet df w1 = Ok w2 ->
        create_missing_values_graph df w2 = Ok w3 ->
        create_outlier_graphs df w3 = Ok w4 ->
        close_writer w4 = Ok xlsx ->
        exists outcome,
          snd (handler file []) = Ok outcome /\
          status outcome = 200%nat /\
          outcome =
            StreamingResponse xlsx
              "application/vnd.openxmlformats-officedocument.spreadsheetml.sheet"
              [("Content-Disposition",
                "attachment; filename=" ++ base
                ++ "_with_summary_missing_values_and_outliers.xlsx")])
    /\
    (exists outcome,
        handler report_txt [] = ([], Ok outcome) /\ status outcome = 400%nat)
    /\
    rsplit_dot_head (filename sales_csv)
    ++ "_with_summary_missing_values_and_outliers.xlsx"
    = "sales_with_summary_missing_values_and_outliers.xlsx".
Proof.
  intros. split; [| split; [| split]].
  - intros file log H. eexists. split; [now apply handler_not_csv|].
    split; reflexivity.
  - intros file base text df w w1 w2 w3 w4 xlsx Hname Hlatin Hd Hr Hw H1 H2 H3 H4 Hc.
    eexists. split.
    { unfold handler. eapply handler_success; eassumption. }
    split; reflexivity.
  - eexists. split; [now apply handler_not_csv | reflexivity].
  - reflexivity.
Qed.

Lemma conversion_endpoint_csv_only_witness :
  (exists outcome,
      csv_to_excel_with_description decode_ok read_csv_ok (Ok [])
        (sheet_ok "Data") (sheet_ok "Summary") (sheet_ok "Missing Values")
        (sheet_ok "Outliers") close_ok report_txt [] = ([], Ok outcome) /\
      status outcome = 400%nat /\
      outcome = HTTPException 400 "Only CSV files are allowed")
  /\
  (exists outcome,
      snd (csv_to_excel_with_description decode_ok read_csv_ok (Ok [])
             (sheet_ok "Data") (sheet_ok "Summary") (sheet_ok "Missing Values")
             (sheet_ok "Outliers") close_ok sales_csv []) = Ok outcome /\
      status outcome = 200%nat /\
      outcome =
        StreamingResponse
          (list_byte_of_string "Data,Summary,Missing Values,Outliers")
          "application/vnd.openxmlformats-officedocument.spreadsheetml.sheet"
          [("Content-Disposition",
            "attachment; filename=sales_with_summary_missing_values_and_outliers.xlsx")]).
Proof.
  pose proof (conversion_endpoint_csv_only string (list string) decode_ok read_csv_ok (Ok [])
                (sheet_ok "Data") (sheet_ok "Summary") (sheet_ok "Missing Values")
                (sheet_ok "Outliers") close_ok) as (Hreject & Haccept & _).
  split.
  - apply (Hreject report_txt []). reflexivity.
  - apply (Haccept sales_csv "sales" "a,b" "a,b" []
             ["Data"] ["Data"; "Summary"] ["Data"; "Summary"; "Missing Values"]
             ["Data"; "Summary"; "Missing Values"; "Outliers"]);
      reflexivity.
Defined.

(** C7 as it is stated fails on a valid CSV file whose name has a
    character outside latin-1: the name of [shuju_csv] ends in [.csv],
    every step on it returns and the buffer is rewound, yet the answer is
    500, because the header value cannot be encoded when the response is
    built. *)
Lemma valid_csv_with_name_outside_latin1_gets_500 :
  endswith (filename shuju_csv) ".csv" = true /\
  csv_to_excel_with_description decode_ok read_csv_ok (Ok [])
    (sheet_ok "Data") (sheet_ok "Summary") (sheet_ok "Missing Values")
    (sheet_ok "Outliers") close_ok shuju_csv []
  = ([EvRead; EvDecode; EvReadCsv; EvOpenWriter; EvDataSheet; EvSummarySheet;
      EvMissingValuesGraph; EvOutlierGraphs; EvCloseWriter; EvSeek],
     Ok (HTTPException 500
           ("An error occurred: "
            ++ "'latin-1' codec can't encode characters in position 21-22: "
            ++ "ordinal not in range(256)"))) /\
  forall outcome,
    snd (csv_to_excel_with_description decode_ok read_csv_ok (Ok [])
           (sheet_ok "Data") (sheet_ok "Summary") (sheet_ok "Missing Values")
           (sheet_ok "Outliers") close_ok shuju_csv []) = Ok outcome ->
    status outcome <> 200%nat.
Proof.
  split; [reflexivity|]. split; [vm_compute; reflexivity|].
  intros outcome H. vm_compute in H. injection H as <-. discriminate.
Qed.

(** C8.  Once the file name has passed the check, an exception raised by
    decoding, parsing, opening the writer, any of the four report steps
    or closing the writer ends the request with status 500 and the
    detail ["An error occurred: "] followed by the exception's own
    message; the outcome is that error, not a spreadsheet response. *)
Theorem conversion_endpoint_reports_500 :
  forall (Table Workbook : Type)
    (decode_utf8 : list byte -> result string string)
    (read_csv : string -> result string Table)
    (excel_writer : result string Workbook)
    (create_data_sheet create_summary_sheet create_missing_values_graph
       create_outlier_graphs : Table -> Workbook -> result string Workbook)
    (close_writer : Workbook -> result string (list byte))
    (file : UploadFile) (msg : string) (log : list event),
    endswith (filename file) ".csv" = true ->
    raises decode_utf8 read_csv excel_writer create_data_sheet
      create_summary_sheet create_missing_values_graph create_outlier_graphs
      close_writer file msg ->
    exists outcome,
      snd (csv_to_excel_with_description decode_utf8 read_csv excel_writer
             create_data_sheet create_summary_sheet create_missing_values_graph
             create_outlier_graphs close_writer file log) = Ok outcome /\
      status outcome = 500%nat /\
      outcome = HTTPException 500 ("An error occurred: " ++ msg) /\
      forall body media_type headers,
        outcome <> StreamingResponse body media_type headers.
Proof.
  intros Table Workbook decode_utf8 read_csv excel_writer create_data_sheet
    create_summary_sheet create_missing_values_graph create_outlier_graphs
    close_writer file msg log Hname Hraises.
  destruct (try_block_raises _ _ _ _ _ _ _ _ _ _ file msg log Hraises) as [log' Hrun].
  eexists. split.
  - rewrite (handler_catches _ _ _ _ _ _ _ _ _ _ file msg log log' Hname Hrun).
    reflexivity.
  - repeat split. discriminate.
Qed.

Lemma conversion_endpoint_reports_500_witness :
  exists outcome,
    snd (csv_to_excel_with_description decode_fails read_csv_ok (Ok [])
           (sheet_ok "Data") (sheet_ok "Summary") (sheet_ok "Missing Values")
           (sheet_ok "Outliers") close_ok sales_csv []) = Ok outcome /\
    status outcome = 500%nat /\
    outcome =
      HTTPException 500
        ("An error occurred: "
         ++ "'utf-8' codec can't decode byte 0xff in position 0: invalid start byte") /\
    forall body media_type headers,
      outcome <> StreamingResponse body media_type headers.
Proof.
  apply (conversion_endpoint_reports_500 string (list string) decode_fails read_csv_ok (Ok [])
           (sheet_ok "Data") (sheet_ok "Summary") (sheet_ok "Missing Values")
           (sheet_ok "Outliers") close_ok sales_csv
           "'utf-8' codec can't decode byte 0xff in position 0: invalid start byte"
           []).
  - reflexivity.
  - apply raises_decode. reflexivity.
Defined.

End ApiFacts.

(** * Further properties of the code *)

(** ** Sorted values and quantiles *)







Section Interpolate.

Variables (xs : list R) (x0 : R).
Hypothesis xs_sorted : StronglySorted Rle xs.
Hypothesis xs_nonempty : xs <> [].

Local Abbreviation last_index := (inject_Z (Z.of_nat (length xs - 1))).




End Interpolate.





(** ** The outlier bounds *)



(** ** The row filter: shape, thresholds *)

Lemma StronglySorted_lt_NoDup (l : list nat) : StronglySorted lt l -> NoDup l.
Proof.
  induction 1 as [|x l Hs IH Hall]; constructor; [| exact IH].
  intros Hin. rewrite Forall_forall in Hall. specialize (Hall x Hin). lia.
Qed.

Lemma kept_rows_NoDup (data : DataFrame) (threshold : R) :
  NoDup (kept_rows data threshold).
Proof. apply StronglySorted_lt_NoDup, positions_increasing. Qed.

Lemma kept_rows_length (data : DataFrame) (threshold : R) :
  (length (kept_rows data threshold) <= nrows data)%nat.
Proof.
  rewrite <- (length_seq (nrows data) 0).
  apply NoDup_incl_length; [apply kept_rows_NoDup|].
  intros i Hi. apply kept_rows_spec in Hi. apply in_seq. lia.
Qed.

(** X2.  The frame returned by [handle_outliers_iqr] is rectangular, has
    the columns of the input (as many, in the same order) and at most as
    many rows. *)
Theorem handle_outliers_iqr_shape :
  forall (data : DataFrame) (threshold : R),
    wf_frame data ->
    wf_frame (handle_outliers_iqr data threshold) /\
    length (columns (handle_outliers_iqr data threshold)) = length (columns data) /\
    (nrows (handle_outliers_iqr data threshold) <= nrows data)%nat.
Proof.
  intros data t Hwf. rewrite (handle_outliers_iqr_kept data t Hwf).
  unfold take_rows, wf_frame. cbn [nrows columns].
  split; [| split].
  - apply Forall_map, Forall_forall. intros col _. apply length_map.
  - apply length_map.
  - apply kept_rows_length.
Qed.

Lemma handle_outliers_iqr_shape_witness :
  wf_frame (handle_outliers_iqr two_column_table 1.5) /\
  length (columns (handle_outliers_iqr two_column_table 1.5))
  = length (columns two_column_table) /\
  (nrows (handle_outliers_iqr two_column_table 1.5) <= nrows two_column_table)%nat.
Proof.
  apply (handle_outliers_iqr_shape two_column_table 1.5), two_column_table_wf.
Defined.

Lemma positions_all_true (keep : list bool) (k : nat) :
  Forall (fun b => b = true) keep -> positions k keep = seq k (length keep).
Proof.
  intros H. revert k. induction H as [|b keep -> _ IH]; intros k; simpl;
    [reflexivity | now rewrite IH].
Qed.

Lemma map_nth_seq {A} (l : list A) (d : A) :
  map (fun i => nth i l d) (seq 0 (length l)) = l.
Proof.
  induction l as [|x l IH]; simpl; [reflexivity|].
  f_equal. rewrite <- seq_shift, map_map. exact IH.
Qed.



(** ** Numeric imputation: what it rejects, what it returns *)

Lemma filter_drops {A} (p : A -> bool) (l : list A) (x : A) :
  In x l -> p x = false -> (length (filter p l) < length l)%nat.
Proof.
  induction l as [|y l IH]; simpl; [tauto|]. intros [-> | Hin] Hp.
  - rewrite Hp. pose proof (filter_length_le p l). lia.
  - specialize (IH Hin Hp). destruct (p y); simpl; lia.
Qed.

Lemma all_missing_forallb {A} (col : list (option A)) :
  Forall (fun x => x = None) col -> forallb isnan col = true.
Proof. induction 1 as [|x col -> _ IH]; simpl; [reflexivity | exact IH]. Qed.

Section Imputation.

Variable knn_impute : list Series -> list (list R).

Lemma handle_missing_values_empty (data : DataFrame) :
  nrows data = 0%nat \/ columns data = [] ->
  handle_missing_values knn_impute data = Raise ValueError.
Proof.
  unfold handle_missing_values, knn_fit_transform, check_array.
  intros [-> | ->]; [reflexivity|].
  now destruct (nrows data =? 0)%nat.
Qed.

Lemma handle_missing_values_empty_column (data : DataFrame) (col : Series) :
  (forall cols, length (knn_impute cols) = length cols) ->
  In col (columns data) -> Forall (fun x => x = None) col ->
  handle_missing_values knn_impute data = Raise ValueError.
Proof.
  intros Hknn Hin Hall.
  unfold handle_missing_values, knn_fit_transform.
  destruct (check_array data) as [[]|[]] eqn:Ec; cbn [bind].
  - cbv zeta.
    assert (Hlt : (length (filter (fun c => negb (forallb isnan c)) (columns data))
                   < length (columns data))%nat).
    { apply (filter_drops _ _ col Hin). now rewrite all_missing_forallb. }
    unfold DataFrame, Series, cell in *.
    destruct (negb (existsb _ _)); cbn [bind]; rewrite ?length_map, ?Hknn;
      match goal with
      | |- context [(?a =? ?b)%nat] => destruct (Nat.eqb_spec a b)
      end; solve [reflexivity | lia].
  - reflexivity.
  - unfold check_array in Ec.
    destruct (nrows data =? 0)%nat; [discriminate|].
    destruct (length (columns data) =? 0)%nat; discriminate.
  - unfold check_array in Ec.
    destruct (nrows data =? 0)%nat; [discriminate|].
    destruct (length (columns data) =? 0)%nat; discriminate.
Qed.

End Imputation.

(** X7.  [handle_missing_values] raises [ValueError] on a numeric table
    without rows or without columns, and -- the k-NN estimate returning one
    column per column it is given -- on a table in which some column has
    no value at all (the imputer drops that column and the frame can no
    longer be rebuilt under the original column names).  The pipeline then
    raises that [ValueError], whatever its categorical columns hold. *)
Theorem numeric_table_without_values_is_rejected :
  forall (knn_impute : list Series -> list (list R)) (data : Dataset),
    n_rows data = 0%nat \/ numeric_features data = [] \/
    ((forall cols, length (knn_impute cols) = length cols) /\
     exists col, In col (numeric_features data) /\ Forall (fun x => x = None) col) ->
    handle_missing_values knn_impute
      {| nrows := n_rows data; columns := numeric_features data |}
    = Raise ValueError /\
    data_preprocessing_pipeline knn_impute data = Raise ValueError.
Proof.
  intros knn data H.
  assert (Hraise : handle_missing_values knn
                     {| nrows := n_rows data; columns := numeric_features data |}
                   = Raise ValueError).
  { destruct H as [H | [H | [Hknn (col & Hin & Hall)]]].
    - apply handle_missing_values_empty. now left.
    - apply handle_missing_values_empty. now right.
    - now apply (handle_missing_values_empty_column knn _ col). }
  split; [exact Hraise|].
  unfold data_preprocessing_pipeline. now rewrite Hraise.
Qed.

Lemma numeric_table_without_values_is_rejected_witness :
  handle_missing_values (map (@dropna R))
    {| nrows := 2; columns := columns frame_with_empty_column |}
  = Raise ValueError /\
  data_preprocessing_pipeline (map (@dropna R))
    {| n_rows := 2;
       numeric_features := columns frame_with_empty_column;
       categorical_features := [ [Some "x"%string; Some "y"%string] ] |}
  = Raise ValueError.
Proof.
  apply (numeric_table_without_values_is_rejected (map (@dropna R))
           {| n_rows := 2;
              numeric_features := columns frame_with_empty_column;
              categorical_features := [ [Some "x"%string; Some "y"%string] ] |}).
  right. right. split.
  - intros cols. apply length_map.
  - exists [None; None]. split; [right; left; reflexivity | repeat constructor].
Defined.

(** ** The returned dataset *)

Lemma replace_outliers_length (col : Series) :
  length (replace_outliers col) = length col.
Proof. rewrite replace_outliers_flagged. apply np_where_length. Qed.

(** The imputed table has the shape of the table it comes from, when the
    k-NN estimate returns columns as long as those it is given. *)
Lemma handle_missing_values_Ok_shape (knn_impute : list Series -> list (list R))
    (data imputed : DataFrame) :
  wf_frame data ->
  (forall cols n, Forall (fun c => length c = n) cols ->
                  Forall (fun c => length c = n) (knn_impute cols)) ->
  handle_missing_values knn_impute data = Ok imputed ->
  wf_frame imputed /\ nrows imputed = nrows data /\
  length (columns imputed) = length (columns data).
Proof.
  intros Hwf Hknn. unfold handle_missing_values, knn_fit_transform.
  destruct (check_array data) as [[]|]; cbn [bind]; [| discriminate].
  cbv zeta.
  assert (Hvalid : Forall (fun c : Series => length c = nrows data)
                     (filter (fun c => negb (forallb isnan c)) (columns data))).
  { unfold wf_frame in Hwf. rewrite Forall_forall in *. intros c Hc.
    apply filter_In in Hc. now apply Hwf. }
  destruct (existsb (existsb isnan) _) eqn:E; cbn [negb bind];
    match goal with
    | |- context [(?a =? ?b)%nat] => destruct (Nat.eqb_spec a b) as [Hlen|]
    end; try discriminate; intros [= <-]; unfold wf_frame; cbn [nrows columns];
    (split; [| split; [reflexivity | exact Hlen]]).
  - apply Forall_map. generalize (Hknn _ _ Hvalid). apply Forall_impl.
    intros c Hc. now rewrite length_map.
  - exact Hvalid.
Qed.

(** X8.  A dataset returned by the pipeline has the shape of the input
    when the input is rectangular and the k-NN estimate returns columns as
    long as those it is given: as many rows, as many numeric and as many
    categorical columns, every column with one cell per row; and in the
    categorical columns every cell that held a value still holds that
    value. *)
Theorem pipeline_result_has_shape_of_input :
  forall (knn_impute : list Series -> list (list R)) (data out : Dataset),
    wf_dataset data ->
    (forall cols n, Forall (fun c => length c = n) cols ->
                    Forall (fun c => length c = n) (knn_impute cols)) ->
    data_preprocessing_pipeline knn_impute data = Ok out ->
    n_rows out = n_rows data /\
    wf_dataset out /\
    length (numeric_features out) = length (numeric_features data) /\
    length (categorical_features out) = length (categorical_features data) /\
    forall (j : nat) (col : ObjSeries),
      nth_error (categorical_features data) j = Some col ->
      exists col' : ObjSeries,
        nth_error (categorical_features out) j = Some col' /\
        forall (i : nat) (v : string),
          nth_error col i = Some (Some v) -> nth_error col' i = Some (Some v).
Proof.
  intros knn data out [Hnum Hcat] Hknn Hrun.
  destruct (pipeline_Ok_inv knn data out Hrun) as (imputed & cats & Himp & Hfill & ->).
  destruct (handle_missing_values_Ok_shape knn
              {| nrows := n_rows data; columns := numeric_features data |}
              imputed Hnum Hknn Himp)
    as (Hwf & Hrows & Hlen).
  cbn [nrows columns n_rows numeric_features categorical_features] in *.
  rewrite replace_outliers_loop_map.
  assert (Hcats : cats =
            map (fun col =>
                   map (fun x => match x with
                                 | Some _ => x
                                 | None => hd_error (series_mode col)
                                 end) col) (categorical_features data)).
  { destruct (Nat.eq_dec (nrows (frame_mode (categorical_features data))) 0) as [Hk|Hk].
    - rewrite (fill_categorical_Raise _ Hk) in Hfill. discriminate.
    - rewrite (fill_categorical_Ok _ Hk) in Hfill. now injection Hfill as <-. }
  subst cats.
  split; [reflexivity|]. split; [| split; [now rewrite !length_map | split]].
  - unfold wf_dataset. cbn [n_rows numeric_features categorical_features]. split.
    + apply Forall_map, Forall_map. revert Hwf. unfold wf_frame. rewrite Hrows.
      apply Forall_impl. intros col Hcol. unfold standardize.
      now rewrite length_map, replace_outliers_length.
    + apply Forall_map. revert Hcat. apply Forall_impl. intros col Hcol.
      now rewrite length_map.
  - apply length_map.
  - intros j col Hj. eexists. split.
    + rewrite nth_error_map, Hj. reflexivity.
    + intros i v Hv. now rewrite nth_error_map, Hv.
Qed.

Lemma pipeline_result_has_shape_of_input_witness :
  n_rows clean_dataset_result = n_rows clean_dataset /\
  wf_dataset clean_dataset_result /\
  length (numeric_features clean_dataset_result)
  = length (numeric_features clean_dataset) /\
  length (categorical_features clean_dataset_result)
  = length (categorical_features clean_dataset) /\
  forall (j : nat) (col : ObjSeries),
    nth_error (categorical_features clean_dataset) j = Some col ->
    exists col' : ObjSeries,
      nth_error (categorical_features clean_dataset_result) j = Some col' /\
      forall (i : nat) (v : string),
        nth_error col i = Some (Some v) -> nth_error col' i = Some (Some v).
Proof.
  apply (pipeline_result_has_shape_of_input
           (map (map (fun x : cell => match x with Some v => v | None => 0 end)))
           clean_dataset clean_dataset_result).
  - split; repeat constructor.
  - intros cols n Hcols. apply Forall_map. revert Hcols. apply Forall_impl.
    intros c <-. apply length_map.
  - apply clean_dataset_pipeline.
Defined.

(** ** Standardisation keeps the order *)



(** ** The conversion endpoint: every outcome *)

Module ApiOutcomes.

Import Api.
Open Scope string_scope.

Section Handler.

Variables Table Workbook : Type.
Variable decode_utf8 : list byte -> result string string.
Variable read_csv : string -> result string Table.
Variable excel_writer : result string Workbook.
Variable create_data_sheet : Table -> Workbook -> result string Workbook.
Variable create_summary_sheet : Table -> Workbook -> result string Workbook.
Variable create_missing_values_graph : Table -> Workbook -> result string Workbook.
Variable create_outlier_graphs : Table -> Workbook -> result string Workbook.
Variable close_writer : Workbook -> result string (list byte).

Local Abbreviation handler :=
  (csv_to_excel_with_description decode_utf8 read_csv excel_writer
     create_data_sheet create_summary_sheet create_missing_values_graph
     create_outlier_graphs close_writer).

Local Abbreviation try_block :=
  (convert decode_utf8 read_csv excel_writer
     create_data_sheet create_summary_sheet create_missing_values_graph
     create_outlier_graphs close_writer).

Local Abbreviation raises :=
  (Api.raises decode_utf8 read_csv excel_writer
     create_data_sheet create_summary_sheet create_missing_values_graph
     create_outlier_graphs close_writer).

(** Every step of the [try] block has returned. *)
Local Abbreviation all_steps_return file xlsx :=
  (exists text df w w1 w2 w3 w4,
      decode_utf8 (content file) = Ok text /\
      read_csv text = Ok df /\
      excel_writer = Ok w /\
      create_data_sheet df w = Ok w1 /\
      create_summary_sheet df w1 = Ok w2 /\
      create_missing_values_graph df w2 = Ok w3 /\
      create_outlier_graphs df w3 = Ok w4 /\
      close_writer w4 = Ok xlsx).

Ltac next_step :=
  match goal with
  | |- context [decode_utf8 ?a] => destruct (decode_utf8 a) eqn:?
  | |- context [read_csv ?a] => destruct (read_csv a) eqn:?
  | |- context [create_data_sheet ?a ?b] => destruct (create_data_sheet a b) eqn:?
  | |- context [create_summary_sheet ?a ?b] => destruct (create_summary_sheet a b) eqn:?
  | |- context [create_missing_values_graph ?a ?b] =>
      destruct (create_missing_values_graph a b) eqn:?
  | |- context [create_outlier_graphs ?a ?b] => destruct (create_outlier_graphs a b) eqn:?
  | |- context [close_writer ?a] => destruct (close_writer a) eqn:?
  end; cbn [fst snd].

(** The [try] block stops at the first step that raises, or, every step
    having returned and the buffer being rewound, ends with the response
    or with the exception of the header encoding. *)
Lemma try_block_cases (file : UploadFile) (log : list event) :
  (exists l xlsx,
      all_steps_return file xlsx /\
      In EvSeek l /\ NoDup l /\
      match encode_latin1 (content_disposition (filename file)) with
      | Ok _ =>
          try_block file log =
          ((log ++ l)%list,
           Ok (StreamingResponse xlsx
                 "application/vnd.openxmlformats-officedocument.spreadsheetml.sheet"
                 [("Content-Disposition",
                   "attachment; filename=" ++ rsplit_dot_head (filename file)
                   ++ "_with_summary_missing_values_and_outliers.xlsx")]))
      | Raise msg => try_block file log = ((log ++ l)%list, Raise msg)
      end)
  \/
  (exists l msg,
      raises file msg /\
      ~ In EvSeek l /\ NoDup l /\
      try_block file log = ((log ++ l)%list, Raise msg)).
Proof.
  unfold convert, with_excel_writer, bindM, call, lift, ret.
  destruct (encode_latin1 (content_disposition (filename file))) as [raw|emsg];
  destruct excel_writer as [w|e] eqn:Ew; repeat next_step;
  rewrite <- ?app_assoc; cbn [app];
  first
    [ right; eexists _, _; split;
      [ solve [ eapply raises_decode; first [eassumption | reflexivity]
              | eapply raises_read_csv; first [eassumption | reflexivity]
              | eapply raises_writer; first [eassumption | reflexivity]
              | eapply raises_data_sheet; first [eassumption | reflexivity]
              | eapply raises_summary_sheet; first [eassumption | reflexivity]
              | eapply raises_missing_values_graph; first [eassumption | reflexivity]
              | eapply raises_outlier_graphs; first [eassumption | reflexivity]
              | eapply raises_close; first [eassumption | reflexivity] ]
      | split; [| split; [| reflexivity]];
        [ cbn; intuition discriminate
        | repeat constructor; cbn; intuition discriminate ] ]
    | left; eexists _, _; split;
      [ do 7 eexists; repeat split; first [eassumption | reflexivity]
      | split; [| split; [| reflexivity]];
        [ cbn; auto 20
        | repeat constructor; cbn; intuition discriminate ] ] ].
Qed.

Lemma raises_excludes_success (file : UploadFile) (msg : string) (xlsx : list byte) :
  raises file msg -> all_steps_return file xlsx -> False.
Proof.
  intros Hr (text & df & w & w1 & w2 & w3 & w4 & Hd & Hc & Hw & H1 & H2 & H3 & H4 & Hx).
  destruct Hr;
    repeat match goal with
           | E1 : ?t = Ok ?a, E2 : ?t = Ok ?b |- _ =>
               assert (a = b) by congruence; subst b; clear E2
           | E1 : ?t = Ok _, E2 : ?t = Raise _ |- _ => congruence
           end.
Qed.

Lemma handler_cases (file : UploadFile) (log : list event) :
  (endswith (filename file) ".csv" = false /\
   handler file log = (log, Ok (HTTPException 400 "Only CSV files are allowed")))
  \/
  (endswith (filename file) ".csv" = true /\
   latin1 (filename file) = true /\
   exists l xlsx,
     all_steps_return file xlsx /\
     In EvSeek l /\ NoDup l /\
     handler file log =
     ((log ++ l)%list,
      Ok (StreamingResponse xlsx
            "application/vnd.openxmlformats-officedocument.spreadsheetml.sheet"
            [("Content-Disposition",
              "attachment; filename=" ++ rsplit_dot_head (filename file)
              ++ "_with_summary_missing_values_and_outliers.xlsx")])))
  \/
  (endswith (filename file) ".csv" = true /\
   latin1 (filename file) = false /\
   exists l xlsx msg,
     all_steps_return file xlsx /\
     In EvSeek l /\ NoDup l /\
     encode_latin1 (content_disposition (filename file)) = Raise msg /\
     handler file log =
     ((log ++ l)%list, Ok (HTTPException 500 ("An error occurred: " ++ msg))))
  \/
  (endswith (filename file) ".csv" = true /\
   exists l msg,
     raises file msg /\
     ~ In EvSeek l /\ NoDup l /\
     handler file log =
     ((log ++ l)%list, Ok (HTTPException 500 ("An error occurred: " ++ msg)))).
Proof.
  unfold csv_to_excel_with_description, try_except.
  destruct (endswith (filename file) ".csv") eqn:Hname; cbn [negb];
    [| left; now split].
  right.
  destruct (ApiFacts.encode_content_disposition _ Hname) as [Henc Hnot].
  destruct (try_block_cases file log)
    as [(l & xlsx & Hall & Hseek & Hnd & Hrun)
       | (l & msg & Hr & Hseek & Hnd & ->)].
  - destruct (latin1 (filename file)) eqn:Hl.
    + left. split; [reflexivity|]. split; [reflexivity|].
      rewrite (Henc eq_refl) in Hrun. rewrite Hrun. now exists l, xlsx.
    + right; left. split; [reflexivity|]. split; [reflexivity|].
      destruct (Hnot eq_refl) as [msg Hmsg]. rewrite Hmsg in Hrun. rewrite Hrun.
      now exists l, xlsx, msg.
  - right; right. split; [reflexivity|]. now exists l, msg.
Qed.

(** X12.  A spreadsheet response is only ever sent for an upload whose
    name ends in [.csv] and for which every step -- decoding, parsing,
    opening the writer, the four report steps, closing the writer -- has
    returned; its body is what closing the writer produced, and its media
    type and download name are the fixed ones. *)
Theorem spreadsheet_response_means_every_step_returned :
  forall (file : UploadFile) (log log' : list event)
         (body : list byte) (media_type : string) (headers : list (string * string)),
    handler file log = (log', Ok (StreamingResponse body media_type headers)) ->
    endswith (filename file) ".csv" = true /\
    all_steps_return file body /\
    media_type = "application/vnd.openxmlformats-officedocument.spreadsheetml.sheet" /\
    headers =
      [("Content-Disposition",
        "attachment; filename=" ++ rsplit_dot_head (filename file)
        ++ "_with_summary_missing_values_and_outliers.xlsx")].
Proof.
  intros file log log' body mt hs Hrun.
  destruct (handler_cases file log)
    as [[_ H] | [(Hname & _ & l & xlsx & Hall & _ & _ & H)
               | [(_ & _ & l & xlsx & msg & _ & _ & _ & _ & H)
                 | (_ & l & msg & _ & _ & _ & H)]]];
    rewrite H in Hrun; try discriminate.
  injection Hrun as _ <- <- <-. repeat split; assumption.
Qed.

(** X13.  The handler always answers, and only with 200, 400 or 500: 400
    exactly when the file name does not end in [.csv]; 200 exactly when it
    does, every step returns and the name has only characters of latin-1;
    500 exactly when it does and either some step raises or every step
    returns and the name has a character outside latin-1. *)
Theorem endpoint_status_characterised :
  forall (file : UploadFile) (log : list event),
  exists (log' : list event) (outcome : Outcome),
    handler file log = (log', Ok outcome) /\
    (status outcome = 200%nat \/ status outcome = 400%nat \/ status outcome = 500%nat) /\
    (status outcome = 400%nat <-> endswith (filename file) ".csv" = false) /\
    (status outcome = 500%nat <->
     endswith (filename file) ".csv" = true /\
     ((exists msg, raises file msg) \/
      ((exists xlsx, all_steps_return file xlsx) /\ latin1 (filename file) = false))) /\
    (status outcome = 200%nat <->
     endswith (filename file) ".csv" = true /\
     (exists xlsx, all_steps_return file xlsx) /\ latin1 (filename file) = true).
Proof.
  intros file log.
  destruct (handler_cases file log)
    as [[Hname H] | [(Hname & Hl & l & xlsx & Hall & _ & _ & H)
                   | [(Hname & Hl & l & xlsx & msg & Hall & _ & _ & _ & H)
                     | (Hname & l & msg & Hr & _ & _ & H)]]];
    rewrite H; eexists _, _; (split; [reflexivity|]); cbn [status];
    rewrite Hname.
  - split; [auto|]. split; [tauto|]. split.
    + split; [discriminate | intros [E _]; discriminate E].
    + split; [discriminate | intros [E _]; discriminate E].
  - rewrite Hl. split; [auto|]. split; [split; discriminate|]. split.
    + split; [discriminate|].
      intros [_ [[msg Hr] | [_ E]]]; [| discriminate E].
      exfalso. eapply raises_excludes_success; eassumption.
    + split; [intros _; split; [reflexivity | split; [now exists xlsx | reflexivity]]
             | reflexivity].
  - rewrite Hl. split; [auto|]. split; [split; discriminate|]. split.
    + split; [| reflexivity].
      intros _. split; [reflexivity|]. right. split; [now exists xlsx | reflexivity].
    + split; [discriminate | intros (_ & _ & E); discriminate E].
  - split; [auto|]. split; [split; discriminate|]. split.
    + split; [intros _; split; [reflexivity | left; now exists msg] | reflexivity].
    + split; [discriminate|].
      intros (_ & [xlsx Hall] & _). exfalso.
      eapply raises_excludes_success; eassumption.
Qed.

(** X14.  Whatever happens, the handler performs each operation at most
    once; it rewinds the buffer exactly when the name ends in [.csv] and
    every step before has returned, which is the case whenever it answers
    200; and an upload rejected for its name causes no operation at all. *)
Theorem endpoint_operations :
  forall (file : UploadFile) (log : list event),
  exists (l : list event) (outcome : Outcome),
    handler file log = ((log ++ l)%list, Ok outcome) /\
    NoDup l /\
    (In EvSeek l <->
     endswith (filename file) ".csv" = true /\ exists xlsx, all_steps_return file xlsx) /\
    (status outcome = 200%nat -> In EvSeek l) /\
    (endswith (filename file) ".csv" = false -> l = []).
Proof.
  intros file log.
  destruct (handler_cases file log)
    as [[Hname H] | [(Hname & Hl & l & xlsx & Hall & Hseek & Hnd & H)
                   | [(Hname & Hl & l & xlsx & msg & Hall & Hseek & Hnd & _ & H)
                     | (Hname & l & msg & Hr & Hseek & Hnd & H)]]];
    rewrite H, Hname.
  - exists [], (HTTPException 400 "Only CSV files are allowed").
    rewrite app_nil_r. split; [reflexivity|]. split; [constructor|].
    cbn [status In]. repeat split; try tauto; try discriminate.
    intros [E _]. discriminate E.
  - exists l. eexists. split; [reflexivity|]. split; [exact Hnd|]. cbn [status].
    split; [| split; [intros _; exact Hseek | discriminate]].
    split; [intros _; split; [reflexivity | now exists xlsx] | intros _; exact Hseek].
  - exists l. eexists. split; [reflexivity|]. split; [exact Hnd|]. cbn [status].
    split; [| split; [intros _; exact Hseek | discriminate]].
    split; [intros _; split; [reflexivity | now exists xlsx] | intros _; exact Hseek].
  - exists l. eexists. split; [reflexivity|]. split; [exact Hnd|]. cbn [status].
    split; [| split; discriminate].
    split; [intros Hin; now destruct (Hseek Hin)|].
    intros (_ & xlsx & Hall). exfalso. eapply raises_excludes_success; eassumption.
Qed.

End Handler.

Lemma endpoint_status_characterised_witness :
  exists (log' : list event) (outcome : Outcome),
    csv_to_excel_with_description decode_ok read_csv_ok (Ok [])
      (sheet_ok "Data") (sheet_ok "Summary") (sheet_ok "Missing Values")
      (sheet_ok "Outliers") close_ok shuju_csv [] = (log', Ok outcome) /\
    (status outcome = 200%nat \/ status outcome = 400%nat \/ status outcome = 500%nat) /\
    (status outcome = 400%nat <-> endswith (filename shuju_csv) ".csv" = false) /\
    (status outcome = 500%nat <->
     endswith (filename shuju_csv) ".csv" = true /\
     ((exists msg,
         Api.raises decode_ok read_csv_ok (Ok [])
           (sheet_ok "Data") (sheet_ok "Summary") (sheet_ok "Missing Values")
           (sheet_ok "Outliers") close_ok shuju_csv msg) \/
      ((exists xlsx text df w w1 w2 w3 w4,
           decode_ok (content shuju_csv) = Ok text /\
           read_csv_ok text = Ok df /\
           @Ok string (list string) [] = Ok w /\
           sheet_ok "Data" df w = Ok w1 /\
           sheet_ok "Summary" df w1 = Ok w2 /\
           sheet_ok "Missing Values" df w2 = Ok w3 /\
           sheet_ok "Outliers" df w3 = Ok w4 /\
           close_ok w4 = Ok xlsx) /\
       latin1 (filename shuju_csv) = false))) /\
    (status outcome = 200%nat <->
     endswith (filename shuju_csv) ".csv" = true /\
     (exists xlsx text df w w1 w2 w3 w4,
         decode_ok (content shuju_csv) = Ok text /\
         read_csv_ok text = Ok df /\
         @Ok string (list string) [] = Ok w /\
         sheet_ok "Data" df w = Ok w1 /\
         sheet_ok "Summary" df w1 = Ok w2 /\
         sheet_ok "Missing Values" df w2 = Ok w3 /\
         sheet_ok "Outliers" df w3 = Ok w4 /\
         close_ok w4 = Ok xlsx) /\
     latin1 (filename shuju_csv) = true).
Proof.
  apply (endpoint_status_characterised string (list string)
           decode_ok read_csv_ok (Ok [])
           (sheet_ok "Data") (sheet_ok "Summary") (sheet_ok "Missing Values")
           (sheet_ok "Outliers") close_ok shuju_csv []).
Defined.

Lemma endpoint_operations_witness :
  exists (l : list event) (outcome : Outcome),
    csv_to_excel_with_description decode_ok read_csv_ok (Ok [])
      (sheet_ok "Data") (fun _ _ => Raise "disk full") (sheet_ok "Missing Values")
      (sheet_ok "Outliers") close_ok sales_csv [] = (([] ++ l)%list, Ok outcome) /\
    NoDup l /\
    (In EvSeek l <->
     endswith (filename sales_csv) ".csv" = true /\
     exists xlsx text df w w1 w2 w3 w4,
       decode_ok (content sales_csv) = Ok text /\
       read_csv_ok text = Ok df /\
       @Ok string (list string) [] = Ok w /\
       sheet_ok "Data" df w = Ok w1 /\
       (fun _ _ => Raise "disk full") df w1 = Ok w2 /\
       sheet_ok "Missing Values" df w2 = Ok w3 /\
       sheet_ok "Outliers" df w3 = Ok w4 /\
       close_ok w4 = Ok xlsx) /\
    (status outcome = 200%nat -> In EvSeek l) /\
    (endswith (filename sales_csv) ".csv" = false -> l = []).
Proof.
  apply (endpoint_operations string (list string)
           decode_ok read_csv_ok (Ok [])
           (sheet_ok "Data") (fun _ _ => Raise "disk full") (sheet_ok "Missing Values")
           (sheet_ok "Outliers") close_ok sales_csv []).
Defined.

Lemma spreadsheet_response_means_every_step_returned_witness :
  endswith (filename sales_csv) ".csv" = true /\
  (exists text df w w1 w2 w3 w4,
      decode_ok (content sales_csv) = Ok text /\
      read_csv_ok text = Ok df /\
      @Ok string (list string) [] = Ok w /\
      sheet_ok "Data" df w = Ok w1 /\
      sheet_ok "Summary" df w1 = Ok w2 /\
      sheet_ok "Missing Values" df w2 = Ok w3 /\
      sheet_ok "Outliers" df w3 = Ok w4 /\
      close_ok w4 = Ok (list_byte_of_string "Data,Summary,Missing Values,Outliers")) /\
  "application/vnd.openxmlformats-officedocument.spreadsheetml.sheet"
  = "application/vnd.openxmlformats-officedocument.spreadsheetml.sheet" /\
  [("Content-Disposition",
    "attachment; filename=sales_with_summary_missing_values_and_outliers.xlsx")]
  = [("Content-Disposition",
      "attachment; filename=" ++ rsplit_dot_head (filename sales_csv)
      ++ "_with_summary_missing_values_and_outliers.xlsx")].
Proof.
  apply (spreadsheet_response_means_every_step_returned string (list string)
           decode_ok read_csv_ok (Ok [])
           (sheet_ok "Data") (sheet_ok "Summary") (sheet_ok "Missing Values")
           (sheet_ok "Outliers") close_ok sales_csv []
           [EvRead; EvDecode; EvReadCsv; EvOpenWriter; EvDataSheet; EvSummarySheet;
            EvMissingValuesGraph; EvOutlierGraphs; EvCloseWriter; EvSeek]).
  reflexivity.
Defined.

End ApiOutcomes.

(** ** The dashboard: missing-value chart and summary table *)

Module DashFacts.

Import Dash.
Open Scope string_scope.

Lemma isnull_plus_present {A} (s : list (option A)) :
  (length (filter isnan s) + length (dropna s) = length s)%nat.
Proof. induction s as [|[x|] s IH]; simpl; lia. Qed.

Lemma isnull_zero {A} (s : list (option A)) :
  length (filter isnan s) = 0%nat <-> no_missing s.
Proof.
  induction s as [|[x|] s IH]; simpl.
  - split; [constructor | reflexivity].
  - rewrite IH. split; [intros H; constructor; [discriminate | exact H]|].
    intros H. now inversion H.
  - split; [discriminate|]. intros H. inversion H. contradiction.
Qed.

(** X15.  The missing-values chart has one bar per column of the table,
    in the order and under the names of the columns; the height of a bar
    is the number of missing cells of its column: together with the cells
    that hold a value it makes up the number of rows, and it is 0 exactly
    for a column without missing cell. *)
Theorem missing_values_graph_counts_missing_cells :
  forall df : Table,
    wf_table df ->
    exists trace : Trace,
      fig_data (create_missing_values_graph df) = [trace] /\
      trace_type trace = "bar" /\
      trace_x trace = map fst (t_columns df) /\
      length (trace_y trace) = length (t_columns df) /\
      forall (j : nat) (name : string) (c : column),
        nth_error (t_columns df) j = Some (name, c) ->
        exists y : nat,
          nth_error (trace_y trace) j = Some y /\
          (y + present c = t_nrows df)%nat /\
          (y = 0%nat <-> complete c).
Proof.
  intros df Hwf. eexists. split; [reflexivity|]. cbn [trace_type trace_x trace_y].
  split; [reflexivity|]. split; [reflexivity|]. split; [apply length_map|].
  intros j name c Hj. exists (isnull_sum c).
  split; [now rewrite nth_error_map, Hj|].
  unfold wf_table in Hwf. rewrite Forall_forall in Hwf.
  specialize (Hwf _ (nth_error_In _ _ Hj)). cbn [snd] in Hwf.
  destruct c as [s|s]; cbn [isnull_sum present complete column_length] in *;
    (split; [rewrite <- Hwf; apply isnull_plus_present | apply isnull_zero]).
Qed.

Lemma missing_values_graph_counts_missing_cells_witness :
  exists trace : Trace,
    fig_data (create_missing_values_graph uploaded_table) = [trace] /\
    trace_type trace = "bar" /\
    trace_x trace = map fst (t_columns uploaded_table) /\
    length (trace_y trace) = length (t_columns uploaded_table) /\
    forall (j : nat) (name : string) (c : column),
      nth_error (t_columns uploaded_table) j = Some (name, c) ->
      exists y : nat,
        nth_error (trace_y trace) j = Some y /\
        (y + present c = t_nrows uploaded_table)%nat /\
        (y = 0%nat <-> complete c).
Proof.
  apply (missing_values_graph_counts_missing_cells uploaded_table).
  repeat constructor.
Defined.

(** *** Minimum and maximum *)





(** *** The summary table *)

(** The columns of the summary of the numeric columns [num]. *)
Lemma summary_columns (num : list (string * Series)) :
  t_columns (rename "index" "Metric" (reset_index (transpose (describe num)))) =
  [ ("Metric", ObjCol (map (fun nc => Some (fst nc)) num));
    ("count", NumCol (map (fun nc => Some (INR (series_count (snd nc)))) num));
    ("mean", NumCol (map (fun nc => mean (snd nc)) num));
    ("std", NumCol (map (fun nc => series_std (snd nc)) num));
    ("min", NumCol (map (fun nc => series_min (snd nc)) num));
    ("25%", NumCol (map (fun nc => quantile 0.25 (snd nc)) num));
    ("50%", NumCol (map (fun nc => quantile 0.5 (snd nc)) num));
    ("75%", NumCol (map (fun nc => quantile 0.75 (snd nc)) num));
    ("max", NumCol (map (fun nc => series_max (snd nc)) num)) ].
Proof.
  unfold rename, reset_index, transpose, describe.
  cbn [t_columns lf_index lf_columns stat_names length seq combine map fst snd
       String.eqb Ascii.eqb Bool.eqb].
  rewrite !map_map. reflexivity.
Qed.

Lemma numeric_columns_nil (df : Table) :
  t_columns df = [] -> numeric_columns df = [].
Proof. unfold numeric_columns. now intros ->. Qed.

Lemma create_summary_numeric (summary_of_objects : Table -> Table) (df : Table) :
  numeric_columns df <> [] ->
  create_summary_dataframe summary_of_objects df =
  Ok (rename "index" "Metric"
        (reset_index (transpose (describe (numeric_columns df))))).
Proof.
  intros Hne. unfold create_summary_dataframe.
  destruct (t_columns df) as [|c cs] eqn:E.
  - exfalso. apply Hne. now apply numeric_columns_nil.
  - cbn [length Nat.eqb]. destruct (numeric_columns df); [contradiction | reflexivity].
Qed.

(** X16.  For an uploaded frame with a numeric column, the summary has one
    row per numeric column, labelled in the column [Metric] with the name
    of that column, followed by the eight statistics columns of
    [describe]; text columns of the upload do not appear. *)
Theorem summary_has_one_row_per_numeric_column :
  forall (summary_of_objects : Table -> Table) (df : Table),
    numeric_columns df <> [] ->
    exists summary : Table,
      create_summary_dataframe summary_of_objects df = Ok summary /\
      wf_table summary /\
      t_nrows summary = length (numeric_columns df) /\
      map fst (t_columns summary) =
        ["Metric"; "count"; "mean"; "std"; "min"; "25%"; "50%"; "75%"; "max"] /\
      nth_error (t_columns summary) 0 =
        Some ("Metric", ObjCol (map (fun nc => Some (fst nc)) (numeric_columns df))).
Proof.
  intros soo df Hne. eexists. split; [now apply create_summary_numeric|].
  assert (Hn : t_nrows (rename "index" "Metric"
                 (reset_index (transpose (describe (numeric_columns df))))) =
               length (numeric_columns df)).
  { cbn [rename reset_index transpose describe t_nrows lf_index lf_columns].
    now rewrite !length_map. }
  split; [| split; [exact Hn | rewrite summary_columns; split; reflexivity]].
  unfold wf_table. rewrite Hn, summary_columns.
  repeat constructor; cbn [snd column_length]; apply length_map.
Qed.

Lemma summary_has_one_row_per_numeric_column_witness :
  exists summary : Table,
    create_summary_dataframe (fun df => df) uploaded_table = Ok summary /\
    wf_table summary /\
    t_nrows summary = length (numeric_columns uploaded_table) /\
    map fst (t_columns summary) =
      ["Metric"; "count"; "mean"; "std"; "min"; "25%"; "50%"; "75%"; "max"] /\
    nth_error (t_columns summary) 0 =
      Some ("Metric", ObjCol (map (fun nc => Some (fst nc)) (numeric_columns uploaded_table))).
Proof.
  apply (summary_has_one_row_per_numeric_column (fun df => df) uploaded_table).
  discriminate.
Defined.







(** *** Splitting the uploaded contents *)

Lemma split_comma_length (s : string) :
  length (split_comma s) = S (count_commas s).
Proof.
  induction s as [|c s IH]; cbn [split_comma count_commas]; [reflexivity|].
  destruct (c =? ",")%char; cbn [length]; [now rewrite IH|].
  destruct (split_comma s) as [|h t]; [discriminate|]. cbn [length] in *. lia.
Qed.

Lemma split_comma_none (s : string) :
  count_commas s = 0%nat -> split_comma s = [s].
Proof.
  induction s as [|c s IH]; cbn [split_comma count_commas]; [reflexivity|].
  destruct (c =? ",")%char; [discriminate|]. cbn [Nat.add]. intros H.
  now rewrite (IH H).
Qed.

Lemma split_comma_one (s b : string) :
  split_comma s = [b] -> s = b /\ count_commas s = 0%nat.
Proof.
  intros H. pose proof (split_comma_length s) as Hl. rewrite H in Hl.
  cbn [length] in Hl. assert (Hc : count_commas s = 0%nat) by lia.
  rewrite (split_comma_none s Hc) in H. injection H as <-. now split.
Qed.

Lemma split_comma_pair (s a b : string) :
  split_comma s = [a; b] <->
  s = a ++ "," ++ b /\ count_commas a = 0%nat /\ count_commas b = 0%nat.
Proof.
  split.
  - revert a. induction s as [|c s IH]; intros a H; cbn [split_comma] in H;
      [discriminate|].
    destruct (c =? ",")%char eqn:Ec.
    + apply Ascii.eqb_eq in Ec. subst c. injection H as <- H.
      apply split_comma_one in H. destruct H as [-> Hc]. now repeat split.
    + destruct (split_comma s) as [|h t] eqn:Es; [discriminate|].
      injection H as <- ->. destruct (IH h eq_refl) as (-> & Ha & Hb).
      repeat split; [| exact Hb]. cbn [count_commas]. now rewrite Ec.
  - intros (-> & Ha & Hb). change ("," ++ b) with (String "," b).
    induction a as [|c a IH].
    + cbn. now rewrite (split_comma_none b Hb).
    + cbn [count_commas] in Ha. cbn [append split_comma].
      destruct (c =? ",")%char; [discriminate|]. cbn [Nat.add] in Ha.
      now rewrite (IH Ha).
Qed.

Lemma count_commas_append (a b : string) :
  count_commas (a ++ b) = (count_commas a + count_commas b)%nat.
Proof.
  induction a as [|c a IH]; cbn [append count_commas]; [reflexivity|].
  rewrite IH. lia.
Qed.

Lemma nth_map_nth_error {A B} (f : A -> B) (l : list A) (j : nat) (x : A) (d : B) :
  nth_error l j = Some x -> nth j (map f l) d = f x.
Proof.
  revert j. induction l as [|y l IH]; intros [|j] H; try discriminate.
  - now injection H as ->.
  - cbn. now apply IH.
Qed.

Lemma nth_error_seq_0 (n j : nat) :
  (j < n)%nat -> nth_error (seq 0 n) j = Some j.
Proof.
  intros H. rewrite (nth_error_nth' _ 0%nat) by (now rewrite length_seq).
  now rewrite seq_nth.
Qed.

Section Callback.

Variable b64decode : string -> result pyexc (list byte).
Variable decode_utf8 : list byte -> result string string.
Variable read_csv : string -> result string Table.
Variable summary_of_objects : Table -> Table.

Local Abbreviation callback :=
  (update_output b64decode decode_utf8 read_csv summary_of_objects).
Local Abbreviation summary_of :=
  (create_summary_dataframe summary_of_objects).

(** X19.  The callback lets an exception escape in three cases only, all
    outside its [try]: the contents do not hold exactly one comma (the
    unpacking of [split] fails with a [ValueError]); the part after the
    comma is not decoded from base 64; the file is read as a frame without
    columns, which [describe] refuses. *)
Theorem update_output_raises_exactly_outside_try :
  forall (contents : string) (filename : option string) (e : pyexc),
    callback (Some contents) filename = Raise e <->
    (count_commas contents <> 1%nat /\ e = ValueError) \/
    (exists content_type content_string : string,
        contents = content_type ++ "," ++ content_string /\
        count_commas content_type = 0%nat /\
        count_commas content_string = 0%nat /\
        (b64decode content_string = Raise e \/
         exists (decoded : list byte) (text : string) (df : Table),
           b64decode content_string = Ok decoded /\
           decode_utf8 decoded = Ok text /\
           read_csv text = Ok df /\
           t_columns df = [] /\ e = ValueError)).
Proof.
  intros contents filename e. unfold update_output.
  destruct (split_comma contents) as [|a [|b [|c l]]] eqn:Es.
  - pose proof (split_comma_length contents) as Hl. now rewrite Es in Hl.
  - apply split_comma_one in Es. destruct Es as [_ Hc]. split.
    + intros [= <-]. left. split; [lia | reflexivity].
    + intros [[_ ->] | (ct & cs & -> & _)]; [reflexivity|].
      rewrite !count_commas_append in Hc. cbn in Hc. lia.
  - apply split_comma_pair in Es. destruct Es as (-> & Ha & Hb). split.
    + intros H. right. exists a, b. repeat split; try assumption.
      destruct (b64decode b) as [decoded|e0] eqn:Eb; cbn [bind] in H;
        [| left; now injection H as ->].
      right. destruct (decode_utf8 decoded) as [text|m] eqn:Ed; cbn [bind] in H;
        [| discriminate].
      destruct (read_csv text) as [df|m] eqn:Er; [| discriminate].
      exists decoded, text, df. repeat split; try reflexivity; try assumption.
      * unfold create_summary_dataframe in H.
        destruct (t_columns df); [reflexivity|]. cbn [length Nat.eqb] in H.
        destruct (numeric_columns _); discriminate.
      * unfold create_summary_dataframe in H.
        destruct (length (t_columns df) =? 0)%nat; cbn [bind] in H;
          [congruence|]. destruct (numeric_columns df); discriminate.
    + intros [[Hc _] | (ct & cs & E & Hct & Hcs & H)].
      { rewrite !count_commas_append in Hc. cbn in Hc. lia. }
      assert (Hp : split_comma (ct ++ "," ++ cs) = [ct; cs])
        by (apply split_comma_pair; now repeat split).
      rewrite <- E in Hp.
      assert (Hp' : split_comma (a ++ "," ++ b) = [a; b])
        by (apply split_comma_pair; now repeat split).
      rewrite Hp' in Hp. injection Hp as <- <-.
      destruct H as [H | (decoded & text & df & Hb' & Hd & Hr & Hcols & ->)].
      * now rewrite H.
      * rewrite Hb'. cbn [bind]. rewrite Hd. cbn [bind]. rewrite Hr.
        unfold create_summary_dataframe. now rewrite Hcols.
  - assert (Hc : count_commas contents <> 1%nat).
    { pose proof (split_comma_length contents) as Hl. rewrite Es in Hl.
      cbn [length] in Hl. lia. }
    split.
    + intros [= <-]. left. now split.
    + intros [[_ ->] | (ct & cs & -> & Hct & Hcs & _)]; [reflexivity|].
      exfalso. apply Hc. rewrite !count_commas_append, Hct, Hcs. reflexivity.
Qed.

(** X20.  When the decoded bytes are not UTF-8 text, or the text is not
    read as a CSV file, the callback returns normally: the message of the
    exception is shown after [Error processing file: ] in the place of the
    graph, and there is no summary table. *)
Theorem update_output_shows_reading_errors :
  forall (content_type content_string : string) (filename : option string)
         (decoded : list byte) (message : string),
    count_commas content_type = 0%nat ->
    count_commas content_string = 0%nat ->
    b64decode content_string = Ok decoded ->
    (decode_utf8 decoded = Raise message \/
     exists text : string,
       decode_utf8 decoded = Ok text /\ read_csv text = Raise message) ->
    callback (Some (content_type ++ "," ++ content_string)) filename =
    Ok (DivText ("Error processing file: " ++ message) [], None).
Proof.
  intros ct cs filename decoded message Hct Hcs Hb H. unfold update_output.
  assert (Hp : split_comma (ct ++ "," ++ cs) = [ct; cs])
    by (apply split_comma_pair; now repeat split).
  rewrite Hp, Hb. cbn [bind].
  destruct H as [H | (text & Hd & Hr)].
  - now rewrite H.
  - rewrite Hd. cbn [bind]. now rewrite Hr.
Qed.

(** X21.  When the file is read as a frame with a numeric column, the
    callback returns the chart of the missing values of the whole frame
    and the table of the summary of the same frame.  The table has a
    header row with [Metric] and the names of the statistics, then one row
    per numeric column of the frame: its name, then its eight statistics,
    with NaN where a statistic is undefined. *)
Theorem update_output_shows_graph_and_summary :
  forall (content_type content_string : string) (filename : option string)
         (decoded : list byte) (text : string) (df : Table),
    count_commas content_type = 0%nat ->
    count_commas content_string = 0%nat ->
    b64decode content_string = Ok decoded ->
    decode_utf8 decoded = Ok text ->
    read_csv text = Ok df ->
    numeric_columns df <> [] ->
    exists (summary : Table) (table : component),
      callback (Some (content_type ++ "," ++ content_string)) filename =
        Ok (Graph (create_missing_values_graph df), Some table) /\
      summary_of df = Ok summary /\
      table = generate_html_table summary /\
      length (table_rows table) = S (length (numeric_columns df)) /\
      nth_error (table_rows table) 0 =
        Some (map (fun name => Th name cell_style) ("Metric" :: stat_names)) /\
      forall (j : nat) (name : string) (s : Series),
        nth_error (numeric_columns df) j = Some (name, s) ->
        nth_error (table_rows table) (S j) =
        Some (Td (Text name) cell_style
              :: map (fun c => Td (show_cell c) cell_style) (describe_series s)).
Proof.
  intros ct cs filename decoded text df Hct Hcs Hb Hd Hr Hne.
  pose proof (create_summary_numeric summary_of_objects df Hne) as Hs.
  eexists. eexists. split; [| split; [exact Hs | split; [reflexivity|]]].
  - unfold update_output.
    assert (Hp : split_comma (ct ++ "," ++ cs) = [ct; cs])
      by (apply split_comma_pair; now repeat split).
    rewrite Hp, Hb. cbn [bind]. rewrite Hd. cbn [bind]. rewrite Hr, Hs.
    reflexivity.
  - unfold generate_html_table. cbv zeta. cbn [table_rows app map].
    rewrite summary_columns.
    cbn [rename reset_index transpose describe t_nrows lf_index lf_columns].
    split; [cbn [length]; now rewrite !length_map, length_seq|].
    split; [reflexivity|].
    intros j name s Hj. cbn [nth_error map fst snd].
    assert (Hlt : (j < length (numeric_columns df))%nat)
      by (apply nth_error_Some; now rewrite Hj).
    rewrite !length_map, !nth_error_map, (nth_error_seq_0 _ _ Hlt).
    cbn [option_map iloc_value].
    rewrite !(nth_map_nth_error _ _ _ _ _ Hj). reflexivity.
Qed.

End Callback.

Lemma update_output_shows_reading_errors_witness :
  update_output (fun _ => Ok []) (fun _ => Raise "invalid start byte")
    (fun _ => Ok uploaded_table) (fun df => df)
    (Some ("data:text/csv;base64" ++ "," ++ "gA==")) (Some "prices.csv") =
  Ok (DivText ("Error processing file: " ++ "invalid start byte") [], None).
Proof.
  apply (update_output_shows_reading_errors
           (fun _ => Ok []) (fun _ => Raise "invalid start byte")
           (fun _ => Ok uploaded_table) (fun df => df)
           "data:text/csv;base64" "gA==" (Some "prices.csv") [] "invalid start byte");
    [reflexivity | reflexivity | reflexivity | left; reflexivity].
Defined.

Lemma update_output_shows_graph_and_summary_witness :
  exists (summary : Table) (table : component),
    update_output (fun _ => Ok []) (fun _ => Ok "price,city") (fun _ => Ok uploaded_table)
      (fun df => df) (Some ("data:text/csv;base64" ++ "," ++ "cHJpY2U=")) None =
      Ok (Graph (create_missing_values_graph uploaded_table), Some table) /\
    create_summary_dataframe (fun df => df) uploaded_table = Ok summary /\
    table = generate_html_table summary /\
    length (table_rows table) = S (length (numeric_columns uploaded_table)) /\
    nth_error (table_rows table) 0 =
      Some (map (fun name => Th name cell_style) ("Metric" :: stat_names)) /\
    forall (j : nat) (name : string) (s : Series),
      nth_error (numeric_columns uploaded_table) j = Some (name, s) ->
      nth_error (table_rows table) (S j) =
      Some (Td (Text name) cell_style
            :: map (fun c => Td (show_cell c) cell_style) (describe_series s)).
Proof.
  apply (update_output_shows_graph_and_summary
           (fun _ => Ok []) (fun _ => Ok "price,city") (fun _ => Ok uploaded_table)
           (fun df => df) "data:text/csv;base64" "cHJpY2U=" None [] "price,city"
           uploaded_table);
    [reflexivity | reflexivity | reflexivity | reflexivity | reflexivity | discriminate].
Defined.

End DashFacts.

(** ** The categorical step *)

(** X22.  When the categorical step returns, the columns keep their number
    and their length, a cell that holds a value is left as it is, and
    every value of a filled column is a value that the column already
    held: no value is invented. *)
Theorem fill_categorical_changes_only_missing_cells :
  forall cols filled : list ObjSeries,
    fill_categorical cols = Ok filled ->
    length filled = length cols /\
    forall (j : nat) (col : ObjSeries),
      nth_error cols j = Some col ->
      exists col' : ObjSeries,
        nth_error filled j = Some col' /\
        length col' = length col /\
        (forall (i : nat) (v : string),
            nth_error col i = Some (Some v) -> nth_error col' i = Some (Some v)) /\
        (forall v : string, In (Some v) col' -> In (Some v) col).
Proof.
  intros cols filled Hfill.
  destruct (Nat.eq_dec (nrows (frame_mode cols)) 0) as [Hk | Hk].
  { rewrite (fill_categorical_Raise cols Hk) in Hfill. discriminate. }
  rewrite (fill_categorical_Ok cols Hk) in Hfill. injection Hfill as <-.
  split; [apply length_map|]. intros j col Hj.
  eexists. split; [rewrite nth_error_map, Hj; reflexivity|].
  split; [apply length_map|]. split.
  - intros i v Hi. now rewrite nth_error_map, Hi.
  - intros v Hv. apply in_map_iff in Hv. destruct Hv as ([w|] & E & Hin).
    + now rewrite <- E.
    + apply (series_mode_In col v).
      destruct (series_mode col) as [|m ms]; [discriminate|].
      cbn [hd_error] in E. injection E as ->. now left.
Qed.

Lemma fill_categorical_changes_only_missing_cells_witness :
  length [ [Some "a"; Some "a"; Some "b"; Some "a"] ]%string =
    length [column_a_a_b_missing] /\
  forall (j : nat) (col : ObjSeries),
    nth_error [column_a_a_b_missing] j = Some col ->
    exists col' : ObjSeries,
      nth_error [ [Some "a"; Some "a"; Some "b"; Some "a"] ]%string j = Some col' /\
      length col' = length col /\
      (forall (i : nat) (v : string),
          nth_error col i = Some (Some v) -> nth_error col' i = Some (Some v)) /\
      (forall v : string, In (Some v) col' -> In (Some v) col).
Proof.
  apply (fill_categorical_changes_only_missing_cells [column_a_a_b_missing]).
  reflexivity.
Defined.

(** * The numeric code in binary64 arithmetic *)

Module F64Facts.

Import PrimFloat F64 F64V.
Open Scope float_scope.
#[local] Set Warnings "-inexact-float".

(** ** Outlier replacement *)

Lemma np_where_length_f64 (f : float -> bool) (v : float) (s : Series) :
  length (np_where (map f s) v s) = length s.
Proof.
  unfold np_where. rewrite length_map, length_combine, length_map. lia.
Qed.

Lemma np_where_nth_f64 (f : float -> bool) (v : float) (s : Series) (i : nat) :
  nth_error (np_where (map f s) v s) i =
  option_map (fun x => if f x then v else x) (nth_error s i).
Proof.
  unfold np_where. revert i. induction s as [|x s IH]; intros [|i]; cbn;
    try reflexivity. apply IH.
Qed.

Section Library.

Variable quantile : float -> Series -> float.
Variable mean : Series -> float.

Local Abbreviation replace_outliers := (F64.replace_outliers quantile mean).
Local Abbreviation replace_outliers_loop := (F64.replace_outliers_loop quantile mean).
Local Abbreviation flagged := (F64V.flagged quantile).
Local Abbreviation in_bounds := (F64V.in_bounds quantile).
Local Abbreviation kept_rows := (F64V.kept_rows quantile).
Local Abbreviation filter_rows := (F64.filter_rows quantile).
Local Abbreviation handle_outliers_iqr := (F64.handle_outliers_iqr quantile).

(** The loop rewrites every column, each from its own values. *)
Lemma replace_outliers_loop_map_f64 (cols : list Series) :
  replace_outliers_loop cols = map replace_outliers cols.
Proof.
  unfold F64.replace_outliers_loop.
  enough (H : forall rest done : list Series,
             fold_left
               (fun data feature =>
                  match nth_error data feature with
                  | Some col => set_column feature (replace_outliers col) data
                  | None => data
                  end)
               (seq (length done) (length rest)) (done ++ rest)
             = done ++ map replace_outliers rest)
    by apply (H cols []).
  induction rest as [|c rest IH]; intros done; simpl.
  - reflexivity.
  - rewrite nth_error_middle, set_column_middle.
    replace (done ++ replace_outliers c :: rest)
      with ((done ++ [replace_outliers c]) ++ rest)
      by (rewrite <- app_assoc; reflexivity).
    replace (S (length done)) with (length (done ++ [replace_outliers c]))
      by (rewrite length_app; simpl; lia).
    rewrite IH, <- app_assoc. reflexivity.
Qed.

Lemma replace_outliers_flag (col : Series) :
  replace_outliers col = np_where (map (flagged 1.5 col) col) (mean col) col.
Proof. reflexivity. Qed.

Lemma replace_outliers_cell_f64 (col : Series) (i : nat) (v : float) :
  nth_error col i = Some v ->
  nth_error (replace_outliers col) i =
  Some (if flagged 1.5 col v then mean col else v).
Proof.
  intros Hv. now rewrite replace_outliers_flag, np_where_nth_f64, Hv.
Qed.

Lemma replace_outliers_in_bounds_f64 (col : Series) :
  in_bounds col -> replace_outliers col = col.
Proof.
  intros Hin. rewrite replace_outliers_flag.
  apply nth_error_ext. intros i. rewrite np_where_nth_f64.
  destruct (nth_error col i) as [x|] eqn:E; [| reflexivity].
  cbn [option_map]. now rewrite (Hin x (nth_error_In _ _ E)).
Qed.

(** ** The row filter *)

Lemma series_zip_map_f64 {A} (f : float -> float -> float) (g h : A -> float)
    (l : list A) :
  series_zip f (map g l) (map h l) = map (fun x => f (g x) (h x)) l.
Proof. unfold series_zip. now rewrite combine_map_same, map_map. Qed.

Lemma filter_rows_unfold (data : DataFrame) (threshold : float) :
  filter_rows data threshold =
  boolean_index data
    (map (fun i =>
            negb (existsb (fun col => nth i (map (flagged threshold col) col) false)
                    (columns data)))
         (seq 0 (nrows data))).
Proof.
  unfold F64.filter_rows, df_quantile, scalar_mul, df_compare, df_or, any_axis1.
  f_equal. rewrite map_map. apply map_ext. intros i. f_equal.
  rewrite !series_zip_map_f64, map_map, !series_zip_map_f64.
  rewrite !combine_map_r, !map_map, combine_map_same, map_map.
  apply existsb_map_ext. intros col. f_equal.
  rewrite combine_map_same, map_map. reflexivity.
Qed.

Lemma boolean_index_take_rows_f64 (data : DataFrame) (keep : list bool) :
  wf_frame data ->
  length keep = nrows data ->
  boolean_index data keep = take_rows (positions 0 keep) data.
Proof.
  intros Hwf Hlen. unfold boolean_index, take_rows.
  rewrite positions_length. f_equal.
  apply map_ext_in. intros col Hcol.
  rewrite (select_positions nan keep col 0).
  - apply map_ext. intros i. now rewrite Nat.sub_0_r.
  - unfold wf_frame in Hwf. rewrite Forall_forall in Hwf.
    rewrite (Hwf col Hcol). now symmetry.
Qed.

Lemma filter_rows_kept (data : DataFrame) (threshold : float) :
  wf_frame data ->
  filter_rows data threshold = take_rows (kept_rows data threshold) data.
Proof.
  intros Hwf. rewrite filter_rows_unfold.
  apply boolean_index_take_rows_f64; [exact Hwf|].
  now rewrite length_map, length_seq.
Qed.



End Library.

(** C1.  Outlier stage of the pipeline ([replace_outliers_loop] over the
    numeric columns), in binary64 and whatever pandas' [quantile] and
    [mean] return.  For every column and every value [v] in it, with the
    bounds [Q1 - 1.5*IQR] and [Q3 + 1.5*IQR] as the code computes them from
    the column's quartiles and [m] the mean of the column as it is before
    the replacement (outliers included): the stage keeps the column's
    length, puts [m] where [v < lower_bound] or [v > upper_bound] holds,
    and keeps [v] where neither holds.  On [1, 2, 3, 4, 100], with the
    quantile and the mean written out: Q1 = 2, Q3 = 4, the bounds are -1
    and 7, the mean is 22, and 100 becomes 22 while 1, 2, 3, 4 stay. *)
Theorem outlier_stage_replaces_by_mean_of_all :
  (forall (quantile : float -> Series -> float) (mean : Series -> float)
          (cols : list Series) (j : nat) (col : Series) (i : nat) (v : float),
      nth_error cols j = Some col ->
      nth_error col i = Some v ->
      exists out : Series,
        nth_error (replace_outliers_loop quantile mean cols) j = Some out /\
        length out = length col /\
        ((v <? lower_bound_of quantile 1.5 col) = true \/
         (upper_bound_of quantile 1.5 col <? v) = true ->
         nth_error out i = Some (mean col)) /\
        ((v <? lower_bound_of quantile 1.5 col) = false ->
         (upper_bound_of quantile 1.5 col <? v) = false ->
         nth_error out i = Some v))
  /\ linear_quantile 0.25 column_with_outlier = 2
  /\ linear_quantile 0.75 column_with_outlier = 4
  /\ lower_bound_of linear_quantile 1.5 column_with_outlier = -1
  /\ upper_bound_of linear_quantile 1.5 column_with_outlier = 7
  /\ nanmean column_with_outlier = 22
  /\ replace_outliers_loop linear_quantile nanmean [column_with_outlier]
     = [[1; 2; 3; 4; 22]].
Proof.
  split; [| repeat split; reflexivity].
  intros quantile mean cols j col i v Hj Hi.
  exists (replace_outliers quantile mean col).
  split; [now rewrite replace_outliers_loop_map_f64, nth_error_map, Hj|].
  split; [rewrite replace_outliers_flag; apply np_where_length_f64|].
  rewrite (replace_outliers_cell_f64 _ _ _ _ _ Hi). unfold flagged. split.
  - intros [H | H]; rewrite H; [reflexivity | now rewrite orb_true_r].
  - intros H1 H2. now rewrite H1, H2.
Qed.

Lemma outlier_stage_replaces_by_mean_of_all_witness :
  exists out : Series,
    nth_error (replace_outliers_loop linear_quantile nanmean [column_with_outlier]) 0
    = Some out /\
    length out = length column_with_outlier /\
    ((100 <? lower_bound_of linear_quantile 1.5 column_with_outlier) = true \/
     (upper_bound_of linear_quantile 1.5 column_with_outlier <? 100) = true ->
     nth_error out 4 = Some (nanmean column_with_outlier)) /\
    ((100 <? lower_bound_of linear_quantile 1.5 column_with_outlier) = false ->
     (upper_bound_of linear_quantile 1.5 column_with_outlier <? 100) = false ->
     nth_error out 4 = Some 100).
Proof.
  apply (proj1 outlier_stage_replaces_by_mean_of_all linear_quantile nanmean
           [column_with_outlier] 0%nat column_with_outlier 4%nat 100);
    reflexivity.
Defined.

(** The bounds are the rounded ones.  In exact arithmetic the bounds of
    [-1.7, 0.1, 0.7, 1.3, 3.1] are -1.7 and 3.1, its own extreme values;
    computed in binary64 they are -1.6999999999999997 and
    3.0999999999999996, so both extreme values are replaced by the
    mean. *)
Lemma values_on_the_fence_are_replaced :
  lower_bound_of linear_quantile 1.5 fence_column = -1.6999999999999997 /\
  upper_bound_of linear_quantile 1.5 fence_column = 3.0999999999999996 /\
  replace_outliers linear_quantile nanmean fence_column = [0.7; 0.1; 0.7; 1.3; 0.7].
Proof. repeat split; reflexivity. Qed.

(** ** The row filter: the rows it keeps *)




Lemma take_rows_all_f64 (data : DataFrame) :
  wf_frame data -> take_rows (seq 0 (nrows data)) data = data.
Proof.
  intros Hwf. unfold take_rows. destruct data as [n cols]. cbn [nrows columns] in *.
  rewrite length_seq. f_equal.
  apply map_id_on. revert Hwf. unfold wf_frame. cbn [nrows columns].
  apply Forall_impl. intros col <-. apply map_nth_seq.
Qed.

Lemma kept_rows_all_f64 (quantile : float -> Series -> float) (data : DataFrame)
    (threshold : float) :
  (forall col x, In col (columns data) -> In x col ->
                 flagged quantile threshold col x = false) ->
  kept_rows quantile data threshold = seq 0 (nrows data).
Proof.
  intros Hclean. unfold kept_rows.
  rewrite positions_all_true; [now rewrite length_map, length_seq|].
  apply Forall_map, Forall_forall. intros i _.
  apply negb_true_iff.
  match goal with |- ?e = false => destruct e eqn:E; [| reflexivity] end.
  apply existsb_exists in E. destruct E as (col & Hcol & Hflag).
  apply nth_map_flag in Hflag. destruct Hflag as (x & Hx & Hf).
  rewrite (Hclean col x Hcol (nth_error_In _ _ Hx)) in Hf. discriminate.
Qed.

(** X3.  A table of numeric columns in which the code's test
    ([value < lower_bound] or [value > upper_bound], on the bounds it
    computes) holds for no value comes back from [handle_outliers_iqr]
    exactly as it went in. *)
Theorem handle_outliers_iqr_keeps_clean_frame :
  forall (quantile : float -> Series -> float) (data : Table)
         (cols : list Series) (threshold : float),
    float_columns (t_columns data) = Some cols ->
    Forall (fun c => length c = t_nrows data) cols ->
    (forall col x, In col cols -> In x col ->
                   flagged quantile threshold col x = false) ->
    handle_outliers_iqr quantile data threshold
    = Ok {| nrows := t_nrows data; columns := cols |}.
Proof.
  intros quantile data cols threshold Hcols Hwf Hclean.
  unfold handle_outliers_iqr. rewrite Hcols. f_equal.
  rewrite filter_rows_kept by exact Hwf.
  rewrite kept_rows_all_f64 by exact Hclean.
  now apply take_rows_all_f64.
Qed.

Lemma handle_outliers_iqr_keeps_clean_frame_witness :
  handle_outliers_iqr linear_quantile
    {| t_nrows := 5; t_columns := [NumCol [0; 3; 3; 5; 8]] |} 1.5
  = Ok {| nrows := 5; columns := [[0; 3; 3; 5; 8]] |}.
Proof.
  apply (handle_outliers_iqr_keeps_clean_frame linear_quantile
           {| t_nrows := 5; t_columns := [NumCol [0; 3; 3; 5; 8]] |}
           [[0; 3; 3; 5; 8]] 1.5).
  - reflexivity.
  - repeat constructor.
  - intros col x [<- | []] Hx.
    repeat (destruct Hx as [<- | Hx]; [reflexivity|]). destruct Hx.
Defined.

(** ** The pipeline on clean numeric columns *)

Lemma finite_no_nan (cols : list Series) :
  Forall (Forall finite) cols -> existsb (existsb isnan) cols = false.
Proof.
  intros H. apply existsb_none. revert H. apply Forall_impl. intros col Hcol.
  apply existsb_none. revert Hcol. apply Forall_impl. now intros x [Hn _].
Qed.

Lemma finite_no_inf (cols : list Series) :
  Forall (Forall finite) cols -> existsb (existsb isinf) cols = false.
Proof.
  intros H. apply existsb_none. revert H. apply Forall_impl. intros col Hcol.
  apply existsb_none. revert Hcol. apply Forall_impl. now intros x [_ Hi].
Qed.

(** Without a missing value the imputation returns the table it is
    given. *)
Lemma handle_missing_values_complete (knn_impute : list Series -> list Series)
    (X : DataFrame) :
  wf_frame X -> nrows X <> 0%nat -> columns X <> [] ->
  Forall (Forall finite) (columns X) ->
  handle_missing_values knn_impute X = Ok X.
Proof.
  intros Hwf Hn Hc Hfin. unfold handle_missing_values, knn_fit_transform, check_array.
  apply Nat.eqb_neq in Hn. rewrite Hn.
  destruct (columns X) as [|c cs] eqn:Ecols; [contradiction|].
  cbn [length Nat.eqb]. rewrite (finite_no_inf _ Hfin). cbn [bind].
  assert (Hvalid : filter (fun c => negb (forallb isnan c)) (c :: cs) = c :: cs).
  { apply filter_all. unfold wf_frame in Hwf. rewrite Ecols in Hwf.
    apply Forall_forall. intros col Hcol.
    rewrite Forall_forall in Hwf, Hfin.
    pose proof (Hwf col Hcol) as Hlen. pose proof (Hfin col Hcol) as Hcolfin.
    destruct col as [|x col]; [apply Nat.eqb_neq in Hn; cbn in Hlen; lia|].
    inversion Hcolfin as [|? ? [Hx _] _]. cbn [forallb]. now rewrite Hx. }
  rewrite Hvalid, (finite_no_nan _ Hfin). cbn [negb bind].
  rewrite Nat.eqb_refl. destruct X as [n cols]. cbn [nrows columns] in *.
  now rewrite Ecols.
Qed.

(** C4, as the code has it.  Take a dataset with at least one row and one
    numeric column, whose numeric cells are all finite numbers (none
    missing) and none of which the code's test puts outside the bounds it
    computes.  Then the imputation stage returns the numeric sub-table as
    it received it, the outlier stage returns every column as it received
    it, and the numeric columns of the pipeline's result are what the
    scaler makes of the original ones: only that stage changes the values
    (the categorical step runs in between and decides with the scaler
    whether the pipeline returns). *)
Theorem clean_numeric_stages_are_identity :
  forall (quantile : float -> Series -> float) (mean : Series -> float)
         (knn_impute : list Series -> list Series)
         (scaler_fit_transform : DataFrame -> result pyexc (list Series))
         (data : Dataset),
    wf_dataset data ->
    n_rows data <> 0%nat ->
    numeric_features data <> [] ->
    Forall (Forall finite) (numeric_features data) ->
    Forall (in_bounds quantile) (numeric_features data) ->
    handle_missing_values knn_impute
      {| nrows := n_rows data; columns := numeric_features data |}
    = Ok {| nrows := n_rows data; columns := numeric_features data |} /\
    replace_outliers_loop quantile mean (numeric_features data)
    = numeric_features data /\
    data_preprocessing_pipeline quantile mean knn_impute scaler_fit_transform data =
    bind (fill_categorical (categorical_features data)) (fun categorical =>
      bind (scaler_fit_transform
              {| nrows := n_rows data; columns := numeric_features data |})
           (fun scaled =>
              Ok {| n_rows := n_rows data;
                    numeric_features := scaled;
                    categorical_features := categorical |})).
Proof.
  intros quantile mean knn scaler data [Hwf _] Hrows Hcols Hfin Hin.
  assert (Himp : handle_missing_values knn
                   {| nrows := n_rows data; columns := numeric_features data |}
                 = Ok {| nrows := n_rows data; columns := numeric_features data |})
    by (apply handle_missing_values_complete; assumption).
  assert (Hloop : replace_outliers_loop quantile mean (numeric_features data)
                  = numeric_features data).
  { rewrite replace_outliers_loop_map_f64. apply map_id_on.
    revert Hin. apply Forall_impl. intros col. apply replace_outliers_in_bounds_f64. }
  split; [exact Himp|]. split; [exact Hloop|].
  unfold data_preprocessing_pipeline. rewrite Himp. cbn [bind columns].
  now rewrite Hloop.
Qed.

Lemma clean_numeric_stages_are_identity_witness :
  handle_missing_values knn_unused
    {| nrows := 5; columns := [[0; 3; 3; 5; 8]] |}
  = Ok {| nrows := 5; columns := [[0; 3; 3; 5; 8]] |} /\
  replace_outliers_loop linear_quantile nanmean [[0; 3; 3; 5; 8]]
  = [[0; 3; 3; 5; 8]] /\
  pipeline clean_dataset =
  bind (fill_categorical (categorical_features clean_dataset)) (fun categorical =>
    bind (standard_scaler {| nrows := 5; columns := [[0; 3; 3; 5; 8]] |})
         (fun scaled =>
            Ok {| n_rows := 5;
                  numeric_features := scaled;
                  categorical_features := categorical |})).
Proof.
  apply (clean_numeric_stages_are_identity linear_quantile nanmean knn_unused
           standard_scaler clean_dataset).
  - split; repeat constructor.
  - discriminate.
  - discriminate.
  - repeat constructor.
  - constructor; [| constructor]. intros x Hx.
    repeat (destruct Hx as [<- | Hx]; [reflexivity|]). destruct Hx.
Defined.

(** C4 as it is stated fails where the imputer refuses its input.  The
    dataset [text_only_dataset] has no numeric column, hence no missing
    and no out-of-bounds numeric value; [infinite_value_dataset] has a
    numeric column without missing value in which the code's test holds
    for no value.  On both the imputation stage does not return the
    numeric sub-table but raises [ValueError], and the pipeline with
    it. *)
Lemma imputation_raises_without_numeric_column :
  (existsb (existsb isnan) (numeric_features text_only_dataset) = false /\
   Forall (in_bounds linear_quantile) (numeric_features text_only_dataset) /\
   handle_missing_values knn_unused
     {| nrows := n_rows text_only_dataset;
        columns := numeric_features text_only_dataset |}
   = Raise ValueError /\
   pipeline text_only_dataset = Raise ValueError)
  /\
  (existsb (existsb isnan) (numeric_features infinite_value_dataset) = false /\
   Forall (in_bounds linear_quantile) (numeric_features infinite_value_dataset) /\
   handle_missing_values knn_unused
     {| nrows := n_rows infinite_value_dataset;
        columns := numeric_features infinite_value_dataset |}
   = Raise ValueError /\
   pipeline infinite_value_dataset = Raise ValueError).
Proof.
  split; [repeat split; constructor|].
  split; [reflexivity|]. split; [| split; reflexivity].
  constructor; [| constructor]. intros x Hx.
  repeat (destruct Hx as [<- | Hx]; [reflexivity|]). destruct Hx.
Qed.

(** ** Running the pipeline on its own result *)


End F64Facts.
